(** * kafka-microservice: the idempotent event-ingestion pipeline

    A shallow embedding of the JavaScript sources
      - [src/utils/validator.js]         (module [Validator])
      - [src/services/eventStore.js]     (module [EventStore])
      - [src/services/kafkaConsumer.js]  (module [KafkaConsumer])
      - [src/services/kafkaProducer.js]  (module [KafkaProducer])
      - [src/controllers/eventController.js] (module [EventController])
    and the properties of the specification checked against them. *)

From Stdlib Require Import ZArith String Ascii Bool List Lia.
From stdpp Require Import base option list.
Import ListNotations.
Local Open Scope string_scope.
Local Open Scope list_scope.
Set Warnings "-register-all".

(* ===================================================================== *)
(** * JavaScript values *)
(* ===================================================================== *)

Module JS.

(** An IEEE-754 double, by its shape.  Only what [ToBoolean] and
    [SameValueZero] look at matters here: the sign of a zero is ignored by
    both, [NaN] is a single value. *)
Inductive number : Type :=
| NaN
| Infinity (negative : bool)
| Zero (negative : bool)
| Finite (negative : bool) (mantissa : positive) (exponent : Z).

(** The values that flow through the pipeline: JSON data.  An object and an
    array carry their identity [id], which is what a [Set] and [includes]
    compare; their contents are never updated in place by the code
    modelled here.  Properties are kept in insertion order. *)
Inductive value : Type :=
| VUndefined
| VNull
| VBool (b : bool)
| VNum (x : number)
| VStr (s : string)
| VArr (id : nat) (items : list value)
| VObj (id : nat) (props : list (string * value)).

(** [ToBoolean]: what [!v] and [v || w] test. *)
Definition truthy (v : value) : bool :=
  match v with
  | VUndefined | VNull => false
  | VBool b => b
  | VNum NaN | VNum (Zero _) => false
  | VNum _ => true
  | VStr s => negb (String.eqb s "")
  | VArr _ _ | VObj _ _ => true
  end.

(** The [typeof] operator. *)
Definition typeof (v : value) : string :=
  match v with
  | VUndefined => "undefined"
  | VNull => "object"
  | VBool _ => "boolean"
  | VNum _ => "number"
  | VStr _ => "string"
  | VArr _ _ | VObj _ _ => "object"
  end.

Definition number_same (x y : number) : bool :=
  match x, y with
  | NaN, NaN => true
  | Zero _, Zero _ => true
  | Infinity a, Infinity b => Bool.eqb a b
  | Finite a m e, Finite b n f => Bool.eqb a b && Pos.eqb m n && Z.eqb e f
  | _, _ => false
  end.

(** [SameValueZero], the comparison of [Set.prototype.has] and
    [Array.prototype.includes]. *)
Definition sameValueZero (v w : value) : bool :=
  match v, w with
  | VUndefined, VUndefined => true
  | VNull, VNull => true
  | VBool a, VBool b => Bool.eqb a b
  | VNum x, VNum y => number_same x y
  | VStr s, VStr t => String.eqb s t
  | VArr i _, VArr j _ => Nat.eqb i j
  | VObj i _, VObj j _ => Nat.eqb i j
  | _, _ => false
  end.

(** [v !== undefined]. *)
Definition is_undefined (v : value) : bool :=
  match v with VUndefined => true | _ => false end.

Definition nullish (v : value) : bool :=
  match v with VUndefined | VNull => true | _ => false end.

Definition typeof_nullish (v : value) : string :=
  match v with VNull => "null" | _ => "undefined" end.

Fixpoint lookup_prop (k : string) (props : list (string * value)) : value :=
  match props with
  | [] => VUndefined
  | (k', v) :: rest => if String.eqb k k' then v else lookup_prop k rest
  end.

(** [v.k] on a value that is neither [null] nor [undefined].  The names
    read by the code ([eventId], [userId], [eventType], [payload],
    [timestamp]) are on no built-in prototype, so a primitive or an array
    yields [undefined]. *)
Definition get (v : value) (k : string) : value :=
  match v with
  | VObj _ props => lookup_prop k props
  | _ => VUndefined
  end.

(** An own property of an object. *)
Definition has_own (k : string) (props : list (string * value)) : bool :=
  existsb (fun p => String.eqb k (fst p)) props.

(** Whether [ToString], as a template literal applies it, throws.  It does
    on an object with an own property [toString]: the property is data, not
    a function, and the inherited [valueOf] gives the object back, so no
    primitive is found.  An array is joined, its elements converted in
    turn ([null] and [undefined] give the empty string); every other value
    has a string. *)
Fixpoint ToString_throws (v : value) : bool :=
  match v with
  | VObj _ props => has_own "toString" props
  | VArr _ items => existsb ToString_throws items
  | _ => false
  end.

Definition array_includes (xs : list value) (v : value) : bool :=
  existsb (sameValueZero v) xs.

(** [String.prototype.includes]. *)
Fixpoint includes (s sub : string) : bool :=
  String.prefix sub s
  || match s with
     | EmptyString => false
     | String _ rest => includes rest sub
     end.

(** [Array.prototype.join] on strings. *)
Definition join (sep : string) (xs : list string) : string :=
  String.concat sep xs.

(** A thrown [Error]: its [name] and [message].  What the modelled code
    throws, and what the libraries it calls throw or reject with, are
    [Error] objects. *)
Record Error : Type := mkError { name : string; message : string }.

Definition TypeError (msg : string) : Error := mkError "TypeError" msg.
Definition SyntaxError (msg : string) : Error := mkError "SyntaxError" msg.
Definition new_Error (msg : string) : Error := mkError "Error" msg.

(** What [ToString] throws. *)
Definition not_primitive : Error :=
  TypeError "Cannot convert object to primitive value".

End JS.
Import JS.

(* ===================================================================== *)
(** * src/utils/validator.js *)
(* ===================================================================== *)

Module Validator.

Definition VALID_EVENT_TYPES : list string := ["LOGIN"; "LOGOUT"; "PRODUCT_VIEW"].

Record Validation : Type := mkValidation { valid : bool; errors : list string }.

Definition err_required : string := "Event payload is required".
Definition err_userId : string := "userId is required and must be a string".
Definition err_eventType : string := "eventType is required and must be a string".
Definition err_membership : string :=
  ("eventType must be one of: " ++ join ", " VALID_EVENT_TYPES)%string.
Definition err_payload : string := "payload must be an object".

(** The three [if] statements after the null guard, each giving the
    errors it pushes. *)
Definition check_userId (event : value) : list string :=
  if negb (truthy (get event "userId"))
     || negb (String.eqb (typeof (get event "userId")) "string")
  then [err_userId] else [].

Definition check_eventType (event : value) : list string :=
  if negb (truthy (get event "eventType"))
     || negb (String.eqb (typeof (get event "eventType")) "string")
  then [err_eventType]
  else if negb (array_includes (map VStr VALID_EVENT_TYPES) (get event "eventType"))
  then [err_membership] else [].

Definition check_payload (event : value) : list string :=
  if negb (is_undefined (get event "payload"))
     && negb (String.eqb (typeof (get event "payload")) "object")
  then [err_payload] else [].

Definition validateEventPayload (event : value) : Validation :=
  if negb (truthy event) then
    mkValidation false [err_required]
  else
    let errors := check_userId event ++ check_eventType event ++ check_payload event in
    mkValidation (Nat.eqb (length errors) 0) errors.

End Validator.

(* ===================================================================== *)
(** * The process: mutable state, output and exceptions *)
(* ===================================================================== *)

Module Runtime.

Inductive Level : Type := info | warn | error.

(** A call of the winston logger: level, message and metadata object.  A
    template literal is kept as its text, the interpolated values are
    listed in the metadata; their conversion to a string is [interpolate],
    done before the call. *)
Record LogLine : Type := mkLog {
  level : Level;
  text : string;
  meta : list (string * value)
}.

(** The object that [processEvent] serializes to stdout. *)
Record ConsoleLine : Type := mkConsole {
  action : string;
  c_eventId : value;
  c_userId : value;
  c_eventType : value;
  c_timestamp : string
}.

(** What [producer.send] is given, and what it resolves to per topic
    partition. *)
Record Message : Type := mkMessage {
  m_key : value;
  m_value : string;
  m_headers : list (string * value)
}.
Record ProducerRecord : Type := mkRecord {
  r_topic : string;
  r_messages : list Message
}.
Record RecordMetadata : Type := mkMetadata {
  partition : value;
  offset : value
}.

(** Everything the modelled code can read or write.
    - [arrays]: the JavaScript arrays that are updated in place, by
      reference: an array is its index in this list;
    - [events], [processedEventIds]: the two fields of the singleton
      exported by eventStore.js; [events] holds a reference, the [Set] is
      reached through its own methods only and is kept by its elements in
      insertion order;
    - [isConnected]: the flag of the singleton exported by kafkaProducer.js;
    - [sent]: the records handed to the broker client so far;
    - [stdout], [logger]: what console.log and the logger have written;
    - [dates], [uuids], [objects]: how many times the clock was read, a
      UUID drawn, an object literal evaluated. *)
Record World : Type := mkWorld {
  arrays : list (list value);
  events : nat;
  processedEventIds : list value;
  isConnected : bool;
  sent : list ProducerRecord;
  stdout : list ConsoleLine;
  logger : list LogLine;
  dates : nat;
  uuids : nat;
  objects : nat
}.

Definition with_arrays (a : list (list value)) (w : World) : World :=
  mkWorld a (events w) (processedEventIds w) (isConnected w) (sent w) (stdout w)
          (logger w) (dates w) (uuids w) (objects w).
Definition with_events (l : nat) (w : World) : World :=
  mkWorld (arrays w) l (processedEventIds w) (isConnected w) (sent w) (stdout w)
          (logger w) (dates w) (uuids w) (objects w).
Definition with_processedEventIds (s : list value) (w : World) : World :=
  mkWorld (arrays w) (events w) s (isConnected w) (sent w) (stdout w)
          (logger w) (dates w) (uuids w) (objects w).
Definition with_isConnected (b : bool) (w : World) : World :=
  mkWorld (arrays w) (events w) (processedEventIds w) b (sent w) (stdout w)
          (logger w) (dates w) (uuids w) (objects w).
Definition with_sent (o : list ProducerRecord) (w : World) : World :=
  mkWorld (arrays w) (events w) (processedEventIds w) (isConnected w) o (stdout w)
          (logger w) (dates w) (uuids w) (objects w).
Definition with_stdout (o : list ConsoleLine) (w : World) : World :=
  mkWorld (arrays w) (events w) (processedEventIds w) (isConnected w) (sent w) o
          (logger w) (dates w) (uuids w) (objects w).
Definition with_logger (o : list LogLine) (w : World) : World :=
  mkWorld (arrays w) (events w) (processedEventIds w) (isConnected w) (sent w) (stdout w)
          o (dates w) (uuids w) (objects w).
Definition with_dates (n : nat) (w : World) : World :=
  mkWorld (arrays w) (events w) (processedEventIds w) (isConnected w) (sent w) (stdout w)
          (logger w) n (uuids w) (objects w).
Definition with_uuids (n : nat) (w : World) : World :=
  mkWorld (arrays w) (events w) (processedEventIds w) (isConnected w) (sent w) (stdout w)
          (logger w) (dates w) n (objects w).
Definition with_objects (n : nat) (w : World) : World :=
  mkWorld (arrays w) (events w) (processedEventIds w) (isConnected w) (sent w) (stdout w)
          (logger w) (dates w) (uuids w) n.

(** A statement either completes with a value or throws. *)
Inductive outcome (A : Type) : Type :=
| Return (a : A)
| Throw (e : Error).
Arguments Return {A} a.
Arguments Throw {A} e.

(** Effects done before a throw stay done. *)
Definition M (A : Type) : Type := World -> outcome A * World.

Definition ret {A} (a : A) : M A := fun w => (Return a, w).
Definition throw {A} (e : Error) : M A := fun w => (Throw e, w).
Definition bind {A B} (c : M A) (k : A -> M B) : M B :=
  fun w => match c w with
           | (Return a, w') => k a w'
           | (Throw e, w') => (Throw e, w')
           end.
(** [try { body } catch (error) { handler }]. *)
Definition try_catch {A} (body : M A) (handler : Error -> M A) : M A :=
  fun w => match body w with
           | (Return a, w') => (Return a, w')
           | (Throw e, w') => handler e w'
           end.

(** The result of a call into a library. *)
Definition lift {A} (o : outcome A) : M A := fun w => (o, w).

Definition gets {A} (f : World -> A) : M A := fun w => (Return (f w), w).
Definition modify (f : World -> World) : M unit := fun w => (Return tt, f w).

Declare Scope js_scope.
Delimit Scope js_scope with js.
Notation "'let*' x ':=' c 'in' k" := (bind c (fun x => k))
  (at level 10, x name, c at level 100, k at level 200) : js_scope.
Notation "'let*' ' p ':=' c 'in' k" := (bind c (fun p => k))
  (at level 10, p strict pattern, c at level 100, k at level 200) : js_scope.
Notation "'do' c ';' k" := (bind c (fun _ => k))
  (at level 10, c at level 100, k at level 200) : js_scope.
Local Open Scope js_scope.

(** [v.k], which throws on [null] and [undefined]. *)
Definition member (v : value) (k : string) : M value :=
  if nullish v
  then throw (TypeError ("Cannot read properties of " ++ typeof_nullish v
                          ++ " (reading '" ++ k ++ "')")%string)
  else ret (get v k).

(** [${v}] in a template literal: the conversion of [v] to a string. *)
Definition interpolate (v : value) : M unit :=
  if ToString_throws v then throw not_primitive else ret tt.

Definition log (l : Level) (msg : string) (m : list (string * value)) : M unit :=
  modify (fun w => with_logger (logger w ++ [mkLog l msg m]) w).

Definition console_log (c : ConsoleLine) : M unit :=
  modify (fun w => with_stdout (stdout w ++ [c]) w).

(** The wall clock and the UUID generator are inputs of the process: the
    n-th reading is [toISOString n], the n-th draw [uuidv4 n]. *)
Section Environment.
Variable toISOString : nat -> string.
Variable uuidv4 : nat -> string.

Definition new_Date_toISOString : M string :=
  let* n := gets dates in do modify (with_dates (S n)); ret (toISOString n).

Definition draw_uuid : M string :=
  let* n := gets uuids in do modify (with_uuids (S n)); ret (uuidv4 n).
End Environment.

(** An object literal: a new identity. *)
Definition new_object (props : list (string * value)) : M value :=
  let* n := gets objects in do modify (with_objects (S n)); ret (VObj n props).

(** Arrays by reference. *)
Definition array_new (xs : list value) : M nat :=
  let* n := gets (fun w => length (arrays w)) in
  do modify (fun w => with_arrays (arrays w ++ [xs]) w);
  ret n.

Definition array_read (l : nat) : M (list value) :=
  gets (fun w => default [] (arrays w !! l)).

Definition array_write (l : nat) (xs : list value) : M unit :=
  modify (fun w => with_arrays (<[l := xs]> (arrays w)) w).

Definition array_push (l : nat) (v : value) : M unit :=
  let* xs := array_read l in array_write l (xs ++ [v]).

(** A [Set], by its elements in insertion order. *)
Definition set_has (s : list value) (v : value) : bool :=
  existsb (sameValueZero v) s.

Definition set_add (s : list value) (v : value) : list value :=
  if set_has s v then s
  else s ++ [match v with VNum (Zero _) => VNum (Zero false) | _ => v end].

End Runtime.
Import Runtime.
Local Open Scope js_scope.

(* ===================================================================== *)
(** * src/services/eventStore.js *)
(* ===================================================================== *)

Module EventStore.

(** [constructor()]. *)
Definition constructor : M unit :=
  let* a := array_new [] in
  do modify (with_events a);
  modify (with_processedEventIds []).

(** [addEvent(event)].  [event.eventId] is read only behind [!event ||],
    hence on a value that is not [null] or [undefined].  The two messages
    that name the id are template literals: the id is converted to a string
    before the logger is called. *)
Definition addEvent (event : value) : M bool :=
  if negb (truthy event) || negb (truthy (get event "eventId")) then
    do log warn "Attempted to add invalid event to store" [];
    ret false
  else
    let* seen := gets (fun w => set_has (processedEventIds w) (get event "eventId")) in
    if seen then
      do interpolate (get event "eventId");
      do log info "Duplicate event detected: ${event.eventId}. Skipping."
             [("event.eventId", get event "eventId")];
      ret false
    else
      let* this_events := gets events in
      do array_push this_events event;
      do modify (fun w => with_processedEventIds
                            (set_add (processedEventIds w) (get event "eventId")) w);
      do interpolate (get event "eventId");
      do log info "Event stored successfully: ${event.eventId}"
             [("event.eventId", get event "eventId")];
      ret true.

(** [getAllEvents()]: the spread [[...this.events]] builds a new array. *)
Definition getAllEvents : M nat :=
  let* this_events := gets events in
  let* xs := array_read this_events in
  array_new xs.

(** [getEventCount()]. *)
Definition getEventCount : M nat :=
  let* this_events := gets events in
  let* xs := array_read this_events in
  ret (length xs).

(** [hasEvent(eventId)]. *)
Definition hasEvent (eventId : value) : M bool :=
  gets (fun w => set_has (processedEventIds w) eventId).

(** [clear()]: a new array for [events], the [Set] emptied in place. *)
Definition clear : M unit :=
  let* a := array_new [] in
  do modify (with_events a);
  do modify (with_processedEventIds []);
  log info "Event store cleared" [].

End EventStore.

(** The process before any module is loaded, and after eventStore.js and
    kafkaProducer.js have built their singletons. *)
Definition blank : World := mkWorld [] 0 [] false [] [] [] 0 0 0.
Definition boot : World :=
  snd ((do EventStore.constructor; modify (with_isConnected false)) blank).

(* ===================================================================== *)
(** * src/services/kafkaConsumer.js *)
(* ===================================================================== *)

Module KafkaConsumer.

(** A delivered message: [value] is a [Buffer] (kept as its text) or
    [null] (a tombstone). *)
Record KafkaMessage : Type := mkKafkaMessage {
  value_buffer : option string;
  msg_offset : string
}.

(** [a || b] on statements: [b] is run only when [a] gives [false]. *)
Definition lazy_or (a b : M bool) : M bool :=
  let* x := a in if x then ret true else b.

(** [!v.k]. *)
Definition not_member (v : value) (k : string) : M bool :=
  let* x := member v k in ret (negb (truthy x)).

Section Consumer.
(** [JSON.parse text], given how many object identities are in use: the
    value and the identities in use afterwards, or a [SyntaxError]. *)
Variable JSON_parse : string -> nat -> option (value * nat).
Variable toISOString : nat -> string.

Definition parse (text : string) : M value :=
  let* n := gets objects in
  match JSON_parse text n with
  | Some (v, n') => do modify (with_objects n'); ret v
  | None => throw (SyntaxError "Unexpected token in JSON")
  end.

(** [message.value.toString()]. *)
Definition value_toString (message : KafkaMessage) : M string :=
  match value_buffer message with
  | Some text => ret text
  | None => throw (TypeError "Cannot read properties of null (reading 'toString')")
  end.

(** [processEvent(event)]. *)
Definition processEvent (event : value) : M bool :=
  try_catch
    (let* invalid := lazy_or (not_member event "eventId")
                       (lazy_or (not_member event "userId")
                                (not_member event "eventType")) in
     if invalid then
       do log warn "Invalid event structure" [("event", event)];
       ret false
     else
       let* eventId := member event "eventId" in
       let* userId := member event "userId" in
       let* eventType := member event "eventType" in
       let* timestamp := new_Date_toISOString toISOString in
       do console_log (mkConsole "EVENT_CONSUMED" eventId userId eventType timestamp);
       let* wasAdded := EventStore.addEvent event in
       ret wasAdded)
    (fun err =>
       let* eventId := member event "eventId" in
       do log error "Error in processEvent"
              [("eventId", eventId); ("error", VStr (JS.message err))];
       ret false).

(** [handleMessage(topic, partition, message)]. *)
Definition handleMessage (topic : string) (partition : value)
           (message : KafkaMessage) : M unit :=
  try_catch
    (let* eventString := value_toString message in
     let* event := parse eventString in
     let* eventId := member event "eventId" in
     let* userId := member event "userId" in
     let* eventType := member event "eventType" in
     do log info "Message received from Kafka"
            [("topic", VStr topic); ("partition", partition);
             ("offset", VStr (msg_offset message)); ("eventId", eventId);
             ("userId", userId); ("eventType", eventType)];
     let* wasAdded := processEvent event in
     if wasAdded then
       let* eventId := member event "eventId" in
       let* userId := member event "userId" in
       let* eventType := member event "eventType" in
       log info "Event processed successfully"
           [("eventId", eventId); ("userId", userId); ("eventType", eventType)]
     else ret tt)
    (fun err =>
       log error "Error processing message"
           [("error", VStr (JS.message err)); ("topic", VStr topic);
            ("partition", partition); ("offset", VStr (msg_offset message));
            ("rawMessage", match value_buffer message with
                           | Some text => VStr (String.substring 0 100 text)
                           | None => VUndefined
                           end)]).

(** The [eachMessage] callback of [startConsuming], over the messages
    delivered in turn: a throw would end the run. *)
Fixpoint eachMessage (deliveries : list (string * value * KafkaMessage)) : M unit :=
  match deliveries with
  | [] => ret tt
  | (topic, partition, message) :: rest =>
      do handleMessage topic partition message;
      eachMessage rest
  end.

End Consumer.

End KafkaConsumer.

(* ===================================================================== *)
(** * src/services/kafkaProducer.js *)
(* ===================================================================== *)

Module KafkaProducer.

Section Producer.
(** [config.kafka.topic], [JSON.stringify] and the broker client. *)
Variable topic : string.
Variable JSON_stringify : value -> string.
Variable client_connect : outcome unit.
Variable client_disconnect : outcome unit.
Variable client_send : ProducerRecord -> outcome (list RecordMetadata).

(** [this.producer.send(record)]. *)
Definition producer_send (record : ProducerRecord) : M (list RecordMetadata) :=
  do modify (fun w => with_sent (sent w ++ [record]) w);
  lift (client_send record).

(** [connect()]. *)
Definition connect : M unit :=
  try_catch
    (do lift client_connect;
     do modify (with_isConnected true);
     log info "Kafka Producer connected successfully" [])
    (fun err =>
       do log error "Failed to connect Kafka Producer" [("error", VStr (JS.message err))];
       throw err).

(** [result[0]], then a property of it. *)
Definition first_metadata (result : list RecordMetadata) (k : string) : M RecordMetadata :=
  match result with
  | r :: _ => ret r
  | [] => throw (TypeError ("Cannot read properties of undefined (reading '"
                              ++ k ++ "')")%string)
  end.

(** [publishEvent(event)]. *)
Definition publishEvent (event : value) : M (list RecordMetadata) :=
  let* connected := gets isConnected in
  if negb connected then
    throw (new_Error "Producer is not connected to Kafka")
  else
    try_catch
      (let* key := member event "userId" in
       let* eventType := member event "eventType" in
       let* timestamp := member event "timestamp" in
       let message := mkMessage key (JSON_stringify event)
                        [("eventType", eventType); ("timestamp", timestamp)] in
       let* result := producer_send (mkRecord topic [message]) in
       let* eventId := member event "eventId" in
       let* r0 := first_metadata result "partition" in
       do log info "Event published to Kafka"
              [("eventId", eventId); ("topic", VStr topic);
               ("partition", partition r0); ("offset", offset r0)];
       ret result)
      (fun err =>
         let* eventId := member event "eventId" in
         do log error "Failed to publish event to Kafka"
                [("eventId", eventId); ("error", VStr (JS.message err))];
         throw err).

(** [disconnect()]. *)
Definition disconnect : M unit :=
  try_catch
    (do lift client_disconnect;
     do modify (with_isConnected false);
     log info "Kafka Producer disconnected" [])
    (fun err =>
       do log error "Error disconnecting Kafka Producer" [("error", VStr (JS.message err))];
       throw err).

End Producer.

End KafkaProducer.

(* ===================================================================== *)
(** * src/controllers/eventController.js *)
(* ===================================================================== *)

Module EventController.

(** What [res.json] is given. *)
Inductive json : Type :=
| JStr (s : string)
| JNum (n : nat)
| JArr (items : list json)
| JObj (props : list (string * json)).

(** [res.status(code).json(body)]. *)
Record Response : Type := mkResponse { statusCode : nat; body : json }.

Fixpoint field (k : string) (props : list (string * json)) : option json :=
  match props with
  | [] => None
  | (k', v) :: rest => if String.eqb k k' then Some v else field k rest
  end.

(** [body.k] of a response body. *)
Definition body_field (k : string) (b : json) : option json :=
  match b with JObj props => field k props | _ => None end.

Section Controller.
Variable topic : string.
Variable JSON_stringify : value -> string.
Variable client_send : ProducerRecord -> outcome (list RecordMetadata).
Variable toISOString : nat -> string.
Variable uuidv4 : nat -> string.

(** [const { userId, eventType, payload } = req.body]. *)
Definition destructure (req_body : value) : M (value * value * value) :=
  if nullish req_body then
    throw (TypeError ("Cannot destructure property 'userId' of 'req.body' as it is "
                        ++ typeof_nullish req_body ++ ".")%string)
  else ret (get req_body "userId", get req_body "eventType", get req_body "payload").

(** [generateEvent(req, res)]. *)
Definition generateEvent (req_body : value) : M Response :=
  try_catch
    (let* '(userId, eventType, payload) := destructure req_body in
     let* candidate := new_object [("userId", userId); ("eventType", eventType);
                                   ("payload", payload)] in
     let validation := Validator.validateEventPayload candidate in
     if negb (Validator.valid validation) then
       ret (mkResponse 400
              (JObj [("error", JStr "Validation failed");
                     ("details", JArr (map JStr (Validator.errors validation)))]))
     else
       let* eventId := draw_uuid uuidv4 in
       let* timestamp := new_Date_toISOString toISOString in
       let* payload' := if truthy payload then ret payload else new_object [] in
       let* event := new_object [("eventId", VStr eventId); ("userId", userId);
                                 ("eventType", eventType);
                                 ("timestamp", VStr timestamp);
                                 ("payload", payload')] in
       do KafkaProducer.publishEvent topic JSON_stringify client_send event;
       do log info "Event generated and published"
              [("eventId", get event "eventId"); ("userId", get event "userId");
               ("eventType", get event "eventType")];
       ret (mkResponse 201
              (JObj [("message", JStr "Event published successfully");
                     ("eventId", JStr eventId);
                     ("timestamp", JStr timestamp)])))
    (fun err =>
       do log error "Error in generateEvent" [("error", VStr (JS.message err))];
       if includes (JS.message err) "not connected" then
         ret (mkResponse 503
                (JObj [("error", JStr "Service unavailable");
                       ("message", JStr "Kafka producer is not available")]))
       else
         ret (mkResponse 500
                (JObj [("error", JStr "Internal server error");
                       ("message", JStr "Failed to publish event")]))).

(** [healthCheck(req, res)]. *)
Definition healthCheck : M Response :=
  let* timestamp := new_Date_toISOString toISOString in
  let* connected := gets isConnected in
  let* processedEvents := EventStore.getEventCount in
  let health :=
    JObj [("status", JStr "ok");
          ("timestamp", JStr timestamp);
          ("service", JStr "kafka-event-microservice");
          ("kafka", JObj [("producer", JStr (if connected then "connected"
                                           else "disconnected"))]);
          ("eventStore", JObj [("processedEvents", JNum processedEvents)])] in
  let* connected' := gets isConnected in
  let statusCode := if connected' then 200 else 503 in
  ret (mkResponse statusCode health).

End Controller.

End EventController.
(* ===================================================================== *)
(** * Sample inputs *)
(* ===================================================================== *)

Module Samples.

(** [{userId: "u1", eventType: "LOGIN", payload: []}]. *)
Definition array_payload : value :=
  VObj 0 [("userId", VStr "u1"); ("eventType", VStr "LOGIN"); ("payload", VArr 1 [])].

(** [{userId: "u1", eventType: "LOGIN", payload: "x"}]. *)
Definition string_payload : value :=
  VObj 0 [("userId", VStr "u1"); ("eventType", VStr "LOGIN"); ("payload", VStr "x")].

(** [{eventId: "e1", userId: "u1", eventType: "LOGIN"}]. *)
Definition login : value :=
  VObj 0 [("eventId", VStr "e1"); ("userId", VStr "u1"); ("eventType", VStr "LOGIN")].

(** [{userId: "u1", eventType: "LOGIN"}]: no [eventId]. *)
Definition anonymous : value :=
  VObj 1 [("userId", VStr "u1"); ("eventType", VStr "LOGIN")].

(** [{eventId: {toString: 1}, userId: "u1", eventType: "LOGIN"}]: an
    [eventId] that has no string. *)
Definition odd_id : value :=
  VObj 2 [("eventId", VObj 3 [("toString", VNum (Finite false 1 0))]);
          ("userId", VStr "u1"); ("eventType", VStr "LOGIN")].

(** [{userId: "u1", eventType: "LOGIN"}] as the body of a request. *)
Definition request : value :=
  VObj 7 [("userId", VStr "u1"); ("eventType", VStr "LOGIN")].

(** A clock, a UUID generator and a serializer to run the code with. *)
Definition clock (n : nat) : string := "2024-01-01T00:00:00.000Z".
Definition uuid (n : nat) : string := "3b241101-e2bb-4255-8caf-4136c566a962".
Definition wire (v : value) : string := "(event)".
Definition topic : string := "user-activity-events".

(** A parser for three message texts: an event, an event without
    [eventId], and the JSON text [null]. *)
Definition parse_table (text : string) (n : nat) : option (value * nat) :=
  if String.eqb text "login e1" then
    Some (VObj n [("eventId", VStr "e1"); ("userId", VStr "u1");
                  ("eventType", VStr "LOGIN")], S n)
  else if String.eqb text "login without id" then
    Some (VObj n [("userId", VStr "u1"); ("eventType", VStr "LOGIN")], S n)
  else if String.eqb text "null" then Some (VNull, n)
  else None.

(** A broker that rejects every record. *)
Definition rejecting (msg : string) (record : ProducerRecord)
  : outcome (list RecordMetadata) := Throw (new_Error msg).

End Samples.

(* ===================================================================== *)
(** * Vocabulary of the properties *)
(* ===================================================================== *)

(** The two kinds of payload the validator lets through: a mapping and an
    array. *)
Definition is_mapping (v : value) : bool :=
  match v with VObj _ _ => true | _ => false end.
Definition is_array (v : value) : bool :=
  match v with VArr _ _ => true | _ => false end.



(** The stored sequence, as [getAllEvents] and [getEventCount] read it. *)
Definition stored (w : World) : list value := default [] (arrays w !! events w).

(** [this.events] refers to an array that exists. *)
Definition allocated (w : World) : Prop := events w < length (arrays w).

(** Nothing of the Event Store has changed: neither the reference held in
    [events], nor any array, nor the set of ids. *)
Definition same_store (w w' : World) : Prop :=
  arrays w' = arrays w
  /\ events w' = events w
  /\ processedEventIds w' = processedEventIds w.

(** The lockstep invariant of the data model: every id of the set is the
    [eventId] of exactly one entry of the sequence, and the [eventId] of
    every entry is in the set. *)
Definition occurrences (id : value) (entries : list value) : nat :=
  length (List.filter (fun e => sameValueZero id (get e "eventId")) entries).

Definition lockstep (w : World) : Prop :=
  (forall id, In id (processedEventIds w) -> occurrences id (stored w) = 1)
  /\ (forall e, In e (stored w) -> set_has (processedEventIds w) (get e "eventId") = true).

(** No two elements of a [Set] are the same value. *)
Fixpoint distinct (s : list value) : Prop :=
  match s with
  | [] => True
  | v :: rest => set_has rest v = false /\ distinct rest
  end.

(** One operation on the Event Store, or a caller updating in place an
    array other than the one the store holds. *)
Inductive step : World -> World -> Prop :=
| step_addEvent (event : value) (w : World) :
    step w (snd (EventStore.addEvent event w))
| step_getAllEvents (w : World) :
    step w (snd (EventStore.getAllEvents w))
| step_getEventCount (w : World) :
    step w (snd (EventStore.getEventCount w))
| step_hasEvent (eventId : value) (w : World) :
    step w (snd (EventStore.hasEvent eventId w))
| step_clear (w : World) :
    step w (snd (EventStore.clear w))
| step_caller (l : nat) (xs : list value) (w : World) :
    l <> events w ->
    step w (snd (array_write l xs w)).

(** The states reachable from the empty store. *)
Inductive reachable : World -> Prop :=
| reachable_boot : reachable boot
| reachable_step (w w' : World) : reachable w -> step w w' -> reachable w'.

(** What keeps the two structures in lockstep: the set lists the [eventId]s
    of the stored sequence, entry by entry, without repetition. *)
Definition inv (w : World) : Prop :=
  allocated w
  /\ map (fun e => get e "eventId") (stored w) = processedEventIds w
  /\ distinct (processedEventIds w).

(** An event of the consumer without one of [eventId], [userId],
    [eventType]. *)
Definition lacks_field (event : value) : bool :=
  negb (truthy (get event "eventId"))
  || negb (truthy (get event "userId"))
  || negb (truthy (get event "eventType")).

(** A request body that passes the validator. *)
Definition valid_request (req_body : value) : Prop :=
  Validator.valid (Validator.validateEventPayload req_body) = true.

(** The two failure responses of [generateEvent]. *)
Definition service_unavailable : EventController.Response :=
  EventController.mkResponse 503
    (EventController.JObj
       [("error", EventController.JStr "Service unavailable");
        ("message", EventController.JStr "Kafka producer is not available")]).

Definition internal_server_error : EventController.Response :=
  EventController.mkResponse 500
    (EventController.JObj
       [("error", EventController.JStr "Internal server error");
        ("message", EventController.JStr "Failed to publish event")]).

(* ===================================================================== *)
(** * src/services/kafkaConsumer.js: the life cycle of the service *)
(* ===================================================================== *)

Module KafkaConsumerService.

(** The two flags of the singleton exported by kafkaConsumer.js. *)
Record Consumer : Type := mkConsumer { isConnected : bool; isRunning : bool }.

(** [constructor()]. *)
Definition constructor : Consumer := mkConsumer false false.

(** A method of the service: it reads and writes the flags of [this] and the
    process, and what it has written stays written when it throws. *)
Definition Svc (A : Type) : Type := Consumer -> World -> outcome A * Consumer * World.

Definition svc_ret {A} (a : A) : Svc A := fun this w => (Return a, this, w).
Definition svc_throw {A} (e : Error) : Svc A := fun this w => (Throw e, this, w).
Definition svc_bind {A B} (c : Svc A) (k : A -> Svc B) : Svc B :=
  fun this w => match c this w with
                | (Return a, this', w') => k a this' w'
                | (Throw e, this', w') => (Throw e, this', w')
                end.
Definition svc_try {A} (body : Svc A) (handler : Error -> Svc A) : Svc A :=
  fun this w => match body this w with
                | (Return a, this', w') => (Return a, this', w')
                | (Throw e, this', w') => handler e this' w'
                end.

(** A statement that does not touch the flags. *)
Definition svc_lift {A} (c : M A) : Svc A :=
  fun this w => let (o, w') := c w in (o, this, w').

Definition set_isConnected (b : bool) : Svc unit :=
  fun this w => (Return tt, mkConsumer b (isRunning this), w).
Definition set_isRunning (b : bool) : Svc unit :=
  fun this w => (Return tt, mkConsumer (isConnected this) b, w).
Definition get_isConnected : Svc bool :=
  fun this w => (Return (isConnected this), this, w).

Declare Scope svc_scope.
Delimit Scope svc_scope with svc.
Notation "'let*' x ':=' c 'in' k" := (svc_bind c (fun x => k))
  (at level 10, x name, c at level 100, k at level 200) : svc_scope.
Notation "'do' c ';' k" := (svc_bind c (fun _ => k))
  (at level 10, c at level 100, k at level 200) : svc_scope.
Local Open Scope svc_scope.

Section Service.
(** [config.kafka.topic] and the four calls into the kafkajs consumer:
    [connect()], [subscribe({ topic, fromBeginning })], [run({ eachMessage })]
    and [disconnect()]. *)
Variable topic : string.
Variable client_connect : outcome unit.
Variable client_subscribe : string -> bool -> outcome unit.
Variable client_run : outcome unit.
Variable client_disconnect : outcome unit.

(** [connect()]. *)
Definition connect : Svc unit :=
  svc_try
    (do svc_lift (lift client_connect);
     do set_isConnected true;
     do svc_lift (log info "Kafka Consumer connected successfully" []);
     do svc_lift (lift (client_subscribe topic true));
     svc_lift (log info "Kafka Consumer subscribed to topic: ${config.kafka.topic}"
                   [("config.kafka.topic", VStr topic)]))
    (fun err =>
       do svc_lift (log error "Failed to connect Kafka Consumer"
                        [("error", VStr (JS.message err))]);
       svc_throw err).

(** [startConsuming()]. *)
Definition startConsuming : Svc unit :=
  let* connected := get_isConnected in
  if negb connected then
    svc_throw (new_Error "Consumer is not connected to Kafka")
  else
    do set_isRunning true;
    svc_try
      (do svc_lift (lift client_run);
       svc_lift (log info "Kafka Consumer started consuming messages" []))
      (fun err =>
         do svc_lift (log error "Error in consumer run" [("error", VStr (JS.message err))]);
         svc_throw err).

(** [disconnect()]. *)
Definition disconnect : Svc unit :=
  svc_try
    (do set_isRunning false;
     do svc_lift (lift client_disconnect);
     do set_isConnected false;
     svc_lift (log info "Kafka Consumer disconnected" []))
    (fun err =>
       do svc_lift (log error "Error disconnecting Kafka Consumer"
                        [("error", VStr (JS.message err))]);
       svc_throw err).

End Service.

End KafkaConsumerService.

(* ===================================================================== *)
(** * src/controllers/eventController.js: the query *)
(* ===================================================================== *)

Module EventQueries.

(** The object literal that [getProcessedEvents] builds per stored event. *)
Record Projection : Type := mkProjection {
  eventId : value;
  userId : value;
  eventType : value;
  timestamp : value;
  payload : value
}.

(** The two bodies [getProcessedEvents] answers with. *)
Inductive Body : Type :=
| Processed (count : nat) (events : list Projection)
| Failed (error message : string).

Record Response : Type := mkResponse { statusCode : nat; body : Body }.

(** A length as a JavaScript number. *)
Definition number_of_nat (n : nat) : number :=
  match n with
  | O => Zero false
  | S _ => Finite false (Pos.of_nat n) 0
  end.

(** The callback of [events.map]. *)
Definition project (event : value) : M Projection :=
  let* eventId := member event "eventId" in
  let* userId := member event "userId" in
  let* eventType := member event "eventType" in
  let* timestamp := member event "timestamp" in
  let* payload := member event "payload" in
  ret (mkProjection eventId userId eventType timestamp payload).

(** [Array.prototype.map] with a callback that may throw.  The array it
    builds is handed to [res.json] at once and is kept by its items. *)
Fixpoint array_map {B : Type} (f : value -> M B) (xs : list value) : M (list B) :=
  match xs with
  | [] => ret []
  | x :: rest =>
      let* y := f x in
      let* ys := array_map f rest in
      ret (y :: ys)
  end.

(** [getProcessedEvents(req, res)]. *)
Definition getProcessedEvents : M Response :=
  try_catch
    (let* events := EventStore.getAllEvents in
     let* xs := array_read events in
     do log info "Retrieved processed events"
            [("count", VNum (number_of_nat (length xs)))];
     let* projected := array_map project xs in
     ret (mkResponse 200 (Processed (length xs) projected)))
    (fun err =>
       do log error "Error in getProcessedEvents" [("error", VStr (JS.message err))];
       ret (mkResponse 500 (Failed "Internal server error"
                                   "Failed to retrieve processed events"))).

End EventQueries.

(* ===================================================================== *)
(** * Vocabulary of the further properties *)
(* ===================================================================== *)

(** What the validator asks of the three fields, on the shape of the value. *)
Definition nonempty_string (v : value) : bool :=
  match v with VStr s => negb (String.eqb s "") | _ => false end.

Definition known_eventType (v : value) : bool :=
  match v with
  | VStr s => existsb (String.eqb s) Validator.VALID_EVENT_TYPES
  | _ => false
  end.

Definition scalar (v : value) : bool :=
  match v with VBool _ | VNum _ | VStr _ => true | _ => false end.

(** The part of the process that is the Event Store. *)
Definition store_view (w : World) : list (list value) * nat * list value :=
  (arrays w, events w, processedEventIds w).

(** What the consumer does to the store with one message: [addEvent] of the
    deserialized event when it is an event with its three fields, nothing
    otherwise. *)
Definition consumed (JSON_parse : string -> nat -> option (value * nat))
           (message : KafkaConsumer.KafkaMessage) (w : World) : World :=
  match KafkaConsumer.value_buffer message with
  | Some text =>
      match JSON_parse text (objects w) with
      | Some (event, _) =>
          if nullish event || lacks_field event then w
          else snd (EventStore.addEvent event w)
      | None => w
      end
  | None => w
  end.

(** The record [publishEvent] hands to the broker client for an event. *)
Definition record_of (topic : string) (JSON_stringify : value -> string)
           (event : value) : ProducerRecord :=
  mkRecord topic
    [mkMessage (get event "userId") (JSON_stringify event)
               [("eventType", get event "eventType");
                ("timestamp", get event "timestamp")]].

(** The public fields of a stored event. *)
Definition public_fields (event : value) : EventQueries.Projection :=
  EventQueries.mkProjection (get event "eventId") (get event "userId")
    (get event "eventType") (get event "timestamp") (get event "payload").

(** One call of a method of the consumer service, whatever the client does. *)
Inductive lifecycle_step : KafkaConsumerService.Consumer ->
                           KafkaConsumerService.Consumer -> Prop :=
| step_connect topic client_connect client_subscribe this w :
    lifecycle_step this
      (snd (fst (KafkaConsumerService.connect topic client_connect client_subscribe
                   this w)))
| step_startConsuming client_run this w :
    lifecycle_step this
      (snd (fst (KafkaConsumerService.startConsuming client_run this w)))
| step_disconnect client_disconnect this w :
    lifecycle_step this
      (snd (fst (KafkaConsumerService.disconnect client_disconnect this w))).

Inductive lifecycle : KafkaConsumerService.Consumer -> Prop :=
| lifecycle_new : lifecycle KafkaConsumerService.constructor
| lifecycle_next this this' :
    lifecycle this -> lifecycle_step this this' -> lifecycle this'.
(* ===================================================================== *)
(** * The repository's unit tests, replayed on the embedding *)
(* ===================================================================== *)

Module UnitTests.
Import Validator EventStore.

(** tests/unit/validator.test.js *)

Example validates_a_correct_payload :
  validateEventPayload
    (VObj 0 [("userId", VStr "user123"); ("eventType", VStr "LOGIN");
             ("payload", VObj 1 [("ip", VStr "192.168.1.1")])])
  = mkValidation true [].
Proof. reflexivity. Qed.

Example validates_without_payload :
  validateEventPayload (VObj 0 [("userId", VStr "user123"); ("eventType", VStr "LOGOUT")])
  = mkValidation true [].
Proof. reflexivity. Qed.

Example validates_all_event_types :
  forallb (fun t => valid (validateEventPayload
                             (VObj 0 [("userId", VStr "user123"); ("eventType", VStr t)])))
          VALID_EVENT_TYPES = true.
Proof. reflexivity. Qed.

Example rejects_missing_userId :
  validateEventPayload (VObj 0 [("eventType", VStr "LOGIN")])
  = mkValidation false ["userId is required and must be a string"].
Proof. reflexivity. Qed.

Example rejects_missing_eventType :
  validateEventPayload (VObj 0 [("userId", VStr "user123")])
  = mkValidation false ["eventType is required and must be a string"].
Proof. reflexivity. Qed.

Example rejects_invalid_eventType :
  validateEventPayload (VObj 0 [("userId", VStr "user123"); ("eventType", VStr "INVALID_TYPE")])
  = mkValidation false ["eventType must be one of: LOGIN, LOGOUT, PRODUCT_VIEW"].
Proof. reflexivity. Qed.

Example rejects_non_string_userId :
  validateEventPayload
    (VObj 0 [("userId", VNum (Finite false 123 0)); ("eventType", VStr "LOGIN")])
  = mkValidation false ["userId is required and must be a string"].
Proof. reflexivity. Qed.

Example rejects_non_object_payload :
  validateEventPayload
    (VObj 0 [("userId", VStr "user123"); ("eventType", VStr "LOGIN");
             ("payload", VStr "invalid")])
  = mkValidation false ["payload must be an object"].
Proof. reflexivity. Qed.

(** tests/unit/eventStore.test.js *)

Example adds_a_valid_event :
  fst ((let* result := addEvent Samples.login in
        let* count := getEventCount in
        let* present := hasEvent (VStr "e1") in
        ret (result, count, present)) boot)
  = Return (true, 1, true).
Proof. reflexivity. Qed.

Example rejects_duplicate_events :
  fst ((let* firstResult := addEvent Samples.login in
        let* secondResult := addEvent Samples.login in
        let* count := getEventCount in
        ret (firstResult, secondResult, count)) boot)
  = Return (true, false, 1).
Proof. reflexivity. Qed.

Example rejects_events_without_eventId :
  fst ((let* result := addEvent Samples.anonymous in
        let* count := getEventCount in
        ret (result, count)) boot)
  = Return (false, 0).
Proof. reflexivity. Qed.

Example returns_a_copy_of_events_array :
  fst ((do addEvent Samples.login;
        let* events1 := getAllEvents in
        let* events2 := getAllEvents in
        let* xs1 := array_read events1 in
        let* xs2 := array_read events2 in
        ret (Nat.eqb events1 events2, xs1, xs2)) boot)
  = Return (false, [Samples.login], [Samples.login]).
Proof. reflexivity. Qed.

Example has_no_unknown_event :
  fst (hasEvent (VStr "non-existing") boot) = Return false.
Proof. reflexivity. Qed.

Example clears_all_events :
  fst ((do addEvent Samples.login;
        do clear;
        let* count := getEventCount in
        let* all := getAllEvents in
        let* xs := array_read all in
        ret (count, xs)) boot)
  = Return (0, []).
Proof. reflexivity. Qed.

End UnitTests.

(* ===================================================================== *)
(** * Properties of the validator *)
(* ===================================================================== *)

Module ValidatorProps.
Import Validator.

Lemma userId_error_is_not_payload_error (event : value) :
  ~ In err_payload (check_userId event).
Proof.
  unfold check_userId.
  destruct (_ || _); simpl; [intros [H | []]; discriminate H | tauto].
Qed.

Lemma eventType_error_is_not_payload_error (event : value) :
  ~ In err_payload (check_eventType event).
Proof.
  unfold check_eventType.
  destruct (_ || _); simpl; [intros [H | []]; discriminate H |].
  destruct (negb _); simpl; [intros [H | []]; vm_compute in H; discriminate H | tauto].
Qed.

Lemma payload_error_iff (event : value) :
  truthy event = true ->
  (In err_payload (errors (validateEventPayload event))
   <-> check_payload event = [err_payload]).
Proof.
  intros Ht. unfold validateEventPayload. rewrite Ht. simpl.
  rewrite !in_app_iff. split.
  - intros [H | [H | H]].
    + destruct (userId_error_is_not_payload_error _ H).
    + destruct (eventType_error_is_not_payload_error _ H).
    + unfold check_payload in *. destruct (_ && _); [reflexivity | destruct H].
  - intros ->. right. right. left. reflexivity.
Qed.

Lemma payload_error_invalid (event : value) :
  truthy event = true ->
  check_payload event = [err_payload] ->
  valid (validateEventPayload event) = false.
Proof.
  intros Ht Hp. unfold validateEventPayload. rewrite Ht. simpl.
  rewrite Hp, !length_app. simpl.
  apply Nat.eqb_neq. lia.
Qed.

(** C4, as the specification states it, fails on an array payload: the
    candidate [{userId: "u1", eventType: "LOGIN", payload: []}] has a
    payload that is present and is an array, yet it is valid and carries
    no payload error. *)
Lemma array_payload_is_accepted :
  is_undefined (get Samples.array_payload "payload") = false
  /\ is_array (get Samples.array_payload "payload") = true
  /\ validateEventPayload Samples.array_payload = mkValidation true [].
Proof. repeat split. Qed.

(** C4, amended: for every non-null candidate whose payload is present and
    not [null], the payload error is among the errors exactly when the
    payload is neither a mapping nor an array, that is, when it is a
    scalar (string, number or boolean); such a candidate is invalid. *)
Theorem payload_error_exactly_for_scalars (event : value) :
  truthy event = true ->
  get event "payload" <> VUndefined ->
  get event "payload" <> VNull ->
  (In err_payload (errors (validateEventPayload event))
   <-> is_mapping (get event "payload") || is_array (get event "payload") = false)
  /\ (is_mapping (get event "payload") || is_array (get event "payload") = false ->
      valid (validateEventPayload event) = false).
Proof.
  intros Ht Hu Hn.
  assert (Hc : check_payload event = [err_payload]
               <-> is_mapping (get event "payload") || is_array (get event "payload") = false).
  { unfold check_payload.
    destruct (get event "payload") as [| | b | x | s | |]; simpl;
      try congruence; split; congruence. }
  split.
  - rewrite payload_error_iff by assumption. exact Hc.
  - intros H. apply payload_error_invalid; [assumption | apply Hc, H].
Qed.

Lemma payload_error_exactly_for_scalars_witness :
  In err_payload (errors (validateEventPayload Samples.string_payload))
  /\ valid (validateEventPayload Samples.string_payload) = false.
Proof.
  assert (Ht : truthy Samples.string_payload = true) by reflexivity.
  assert (Hu : get Samples.string_payload "payload" <> VUndefined) by discriminate.
  assert (Hn : get Samples.string_payload "payload" <> VNull) by discriminate.
  destruct (payload_error_exactly_for_scalars Samples.string_payload Ht Hu Hn)
    as [Hiff Hinv].
  split; [apply Hiff; reflexivity | apply Hinv; reflexivity].
Defined.

(** C5, as the specification states it, fails on the text of the error:
    for [null] the single error is not the string "payload is required". *)
Lemma null_error_is_not_payload_is_required :
  validateEventPayload VNull <> mkValidation false ["payload is required"].
Proof. discriminate. Qed.

(** C5, amended: for a [null] or absent candidate the validator returns
    at once, invalid, with exactly one error, the string
    "Event payload is required". *)
Theorem null_candidate_single_error (event : value) :
  nullish event = true ->
  validateEventPayload event = mkValidation false ["Event payload is required"].
Proof. destruct event; try discriminate; reflexivity. Qed.

Lemma null_candidate_single_error_witness :
  validateEventPayload VNull = mkValidation false ["Event payload is required"]
  /\ validateEventPayload VUndefined = mkValidation false ["Event payload is required"].
Proof. split; apply null_candidate_single_error; reflexivity. Defined.

End ValidatorProps.

(* ===================================================================== *)
(** * Properties of the Event Store *)
(* ===================================================================== *)

Module EventStoreProps.
Import EventStore.

(** ** SameValueZero and sets *)

Lemma number_same_refl (x : number) : number_same x x = true.
Proof.
  destruct x as [| a | a | a m e]; simpl; try reflexivity.
  - apply Bool.eqb_reflx.
  - rewrite Bool.eqb_reflx, Pos.eqb_refl, Z.eqb_refl. reflexivity.
Qed.

Lemma sameValueZero_refl (v : value) : sameValueZero v v = true.
Proof.
  destruct v as [| | b | x | s | i xs | i ps]; simpl; try reflexivity.
  - apply Bool.eqb_reflx.
  - apply number_same_refl.
  - apply String.eqb_refl.
  - apply Nat.eqb_refl.
  - apply Nat.eqb_refl.
Qed.

Lemma number_same_sym (x y : number) : number_same x y = number_same y x.
Proof.
  destruct x as [| a | a | a m e], y as [| b | b | b n f]; simpl; try reflexivity.
  - destruct a, b; reflexivity.
  - rewrite (Pos.eqb_sym m n), (Z.eqb_sym e f). destruct a, b; reflexivity.
Qed.

Lemma sameValueZero_sym (v w : value) : sameValueZero v w = sameValueZero w v.
Proof.
  destruct v, w; simpl; try reflexivity.
  - destruct b, b0; reflexivity.
  - apply number_same_sym.
  - apply String.eqb_sym.
  - apply Nat.eqb_sym.
  - apply Nat.eqb_sym.
Qed.

Lemma set_has_app (s t : list value) (v : value) :
  set_has (s ++ t) v = set_has s v || set_has t v.
Proof. unfold set_has. apply existsb_app. Qed.

Lemma set_has_last (s : list value) (v : value) : set_has (s ++ [v]) v = true.
Proof.
  rewrite set_has_app. unfold set_has at 2. simpl.
  rewrite sameValueZero_refl. apply orb_true_iff. right. reflexivity.
Qed.

Lemma set_has_false_In (s : list value) (v u : value) :
  set_has s v = false -> In u s -> sameValueZero v u = false.
Proof.
  unfold set_has. induction s as [| x s IH]; simpl; [tauto |].
  intros H [-> | Hin]; apply orb_false_iff in H; destruct H as [Hx Hs].
  - exact Hx.
  - apply IH; assumption.
Qed.

Lemma set_add_new (s : list value) (v : value) :
  truthy v = true -> set_has s v = false -> set_add s v = s ++ [v].
Proof.
  intros Ht Hs. unfold set_add. rewrite Hs.
  destruct v as [| | b | x | t | |]; try reflexivity.
  destruct x; try reflexivity. discriminate Ht.
Qed.

Lemma distinct_snoc (s : list value) (v : value) :
  distinct s -> set_has s v = false -> distinct (s ++ [v]).
Proof.
  induction s as [| x s IH]; simpl.
  - intros _ _. split; [reflexivity | exact I].
  - intros [Hx Hd] Hv.
    unfold set_has in Hv. simpl in Hv.
    apply orb_false_iff in Hv. destruct Hv as [Hvx Hvs].
    split.
    + rewrite set_has_app, Hx. unfold set_has. simpl.
      rewrite sameValueZero_sym, Hvx. reflexivity.
    + apply IH; assumption.
Qed.

(** ** What each operation does *)

Lemma no_id_has_a_string (event : value) :
  negb (truthy event) || negb (truthy (get event "eventId")) = true ->
  ToString_throws (get event "eventId") = false.
Proof.
  destruct (get event "eventId") eqn:Hid; try reflexivity; intros H;
    destruct event; simpl in Hid; try discriminate Hid; simpl in H; discriminate H.
Qed.

Lemma addEvent_rejects (event : value) (w : World) :
  negb (truthy event) || negb (truthy (get event "eventId"))
  || set_has (processedEventIds w) (get event "eventId") = true ->
  exists w',
    addEvent event w
    = (if ToString_throws (get event "eventId") then Throw not_primitive
       else Return false, w')
    /\ same_store w w'.
Proof.
  intros H. unfold addEvent.
  destruct (negb (truthy event) || negb (truthy (get event "eventId"))) eqn:Hg.
  - rewrite (no_id_has_a_string event Hg).
    eexists. split; [reflexivity | repeat split].
  - simpl in H. unfold bind at 1, gets at 1. rewrite H.
    unfold bind at 1, interpolate.
    destruct (ToString_throws (get event "eventId"));
      eexists; (split; [reflexivity | repeat split]).
Qed.

Lemma addEvent_accepts (event : value) (w : World) :
  allocated w ->
  negb (truthy event) || negb (truthy (get event "eventId"))
  || set_has (processedEventIds w) (get event "eventId") = false ->
  exists w',
    addEvent event w
    = (if ToString_throws (get event "eventId") then Throw not_primitive
       else Return true, w')
    /\ stored w' = stored w ++ [event]
    /\ processedEventIds w' = processedEventIds w ++ [get event "eventId"]
    /\ events w' = events w
    /\ length (arrays w') = length (arrays w)
    /\ (forall l, l <> events w -> arrays w' !! l = arrays w !! l).
Proof.
  intros Ha H. apply orb_false_iff in H. destruct H as [Hg Hs].
  pose proof Hg as Hg'. apply orb_false_iff in Hg'. destruct Hg' as [_ Hid].
  apply negb_false_iff in Hid.
  unfold addEvent. rewrite Hg. unfold bind at 1, gets at 1. rewrite Hs.
  unfold interpolate.
  destruct (ToString_throws (get event "eventId"));
    (eexists; split; [reflexivity |]; cbn;
     repeat split;
     [ unfold stored; cbn; rewrite list_lookup_insert_eq by exact Ha; reflexivity
     | apply set_add_new; assumption
     | apply length_insert
     | intros l Hl; apply list_lookup_insert_ne; congruence ]).
Qed.

Lemma addEvent_stdout (event : value) (w : World) :
  stdout (snd (addEvent event w)) = stdout w.
Proof.
  unfold addEvent.
  destruct (negb (truthy event) || negb (truthy (get event "eventId")));
    [reflexivity |].
  unfold bind at 1, gets at 1. unfold interpolate.
  destruct (set_has (processedEventIds w) (get event "eventId")),
           (ToString_throws (get event "eventId")); reflexivity.
Qed.

Lemma getEventCount_reads (w : World) :
  getEventCount w = (Return (length (stored w)), w).
Proof. reflexivity. Qed.

Lemma getAllEvents_copies (w : World) :
  getAllEvents w
  = (Return (length (arrays w)), with_arrays (arrays w ++ [stored w]) w).
Proof. reflexivity. Qed.

Lemma get_truthy (v : value) (k : string) :
  truthy (get v k) = true -> truthy v = true /\ nullish v = false.
Proof. destruct v; simpl; try discriminate; split; reflexivity. Qed.

Lemma same_store_stored (w w' : World) : same_store w w' -> stored w' = stored w.
Proof. intros (Ha & He & _). unfold stored. rewrite Ha, He. reflexivity. Qed.

(** ** The lockstep invariant *)

Lemma inv_boot : inv boot.
Proof. repeat split. unfold allocated. simpl. lia. Qed.

Lemma inv_addEvent (event : value) (w : World) :
  inv w -> inv (snd (addEvent event w)).
Proof.
  intros (Ha & Hm & Hd).
  destruct (negb (truthy event) || negb (truthy (get event "eventId"))
            || set_has (processedEventIds w) (get event "eventId")) eqn:Hg.
  - destruct (addEvent_rejects event w Hg) as (w' & -> & Hs).
    pose proof (same_store_stored _ _ Hs) as Hst.
    destruct Hs as (Harr & Hev & Hids). simpl.
    unfold inv, allocated. rewrite Hst, Harr, Hev, Hids. auto.
  - destruct (addEvent_accepts event w Ha Hg) as (w' & -> & Hst & Hids & Hev & Hlen & _).
    apply orb_false_iff in Hg. destruct Hg as [_ Hs]. simpl.
    unfold inv, allocated. rewrite Hst, Hids, Hev, Hlen, map_app, Hm.
    split; [exact Ha | split; [reflexivity | apply distinct_snoc; assumption]].
Qed.

Lemma inv_getAllEvents (w : World) : inv w -> inv (snd (getAllEvents w)).
Proof.
  intros (Ha & Hm & Hd). rewrite getAllEvents_copies. simpl.
  unfold inv, allocated, stored in *. simpl.
  rewrite length_app, lookup_app_l by exact Ha.
  split; [lia | split; assumption].
Qed.

Lemma inv_clear (w : World) : inv w -> inv (snd (clear w)).
Proof.
  intros _. unfold inv, allocated, stored. cbn.
  rewrite length_app, lookup_app_r by lia.
  rewrite Nat.sub_diag. simpl. split; [lia | split; [reflexivity | exact I]].
Qed.

Lemma inv_caller (l : nat) (xs : list value) (w : World) :
  l <> events w -> inv w -> inv (snd (array_write l xs w)).
Proof.
  intros Hl (Ha & Hm & Hd). unfold inv, allocated, stored in *. cbn.
  rewrite length_insert, list_lookup_insert_ne by exact Hl.
  split; [exact Ha | split; assumption].
Qed.

Lemma inv_step (w w' : World) : step w w' -> inv w -> inv w'.
Proof.
  intros Hs Hi. destruct Hs.
  - apply inv_addEvent, Hi.
  - apply inv_getAllEvents, Hi.
  - exact Hi.
  - exact Hi.
  - apply inv_clear, Hi.
  - apply inv_caller; assumption.
Qed.

Lemma inv_reachable (w : World) : reachable w -> inv w.
Proof.
  induction 1 as [| w w' _ IH Hs]; [apply inv_boot | exact (inv_step _ _ Hs IH)].
Qed.

Lemma occurrences_map (id : value) (entries : list value) :
  occurrences id entries
  = length (List.filter (sameValueZero id) (map (fun e => get e "eventId") entries)).
Proof.
  unfold occurrences. induction entries as [| e es IH]; simpl; [reflexivity |].
  destruct (sameValueZero id (get e "eventId")); simpl; rewrite IH; reflexivity.
Qed.

Lemma filter_absent (s : list value) (v : value) :
  set_has s v = false -> List.filter (sameValueZero v) s = [].
Proof.
  unfold set_has. induction s as [| x s IH]; simpl; [reflexivity |].
  intros H. apply orb_false_iff in H. destruct H as [Hx Hs].
  rewrite Hx. apply IH, Hs.
Qed.

Lemma distinct_once (s : list value) (id : value) :
  distinct s -> In id s -> length (List.filter (sameValueZero id) s) = 1.
Proof.
  induction s as [| x s IH]; simpl; [tauto |].
  intros [Hx Hd] [-> | Hin].
  - rewrite sameValueZero_refl. simpl. rewrite (filter_absent _ _ Hx). reflexivity.
  - rewrite sameValueZero_sym, (set_has_false_In _ _ _ Hx Hin). apply IH; assumption.
Qed.

Lemma set_has_In (s : list value) (v : value) : In v s -> set_has s v = true.
Proof.
  intros H. unfold set_has. apply existsb_exists.
  exists v. split; [exact H | apply sameValueZero_refl].
Qed.

Lemma inv_lockstep (w : World) : inv w -> lockstep w.
Proof.
  intros (_ & Hm & Hd). split.
  - intros id Hin. rewrite occurrences_map, Hm. apply distinct_once; assumption.
  - intros e Hin. apply set_has_In. rewrite <- Hm.
    apply (in_map (fun e => get e "eventId")), Hin.
Qed.

Lemma allocated_boot : allocated boot.
Proof. unfold allocated. simpl. lia. Qed.

(** [this.events] is never left dangling. *)
Lemma reachable_allocated (w : World) : reachable w -> allocated w.
Proof. intros H. apply inv_reachable in H. apply H. Qed.

(** ** The claims *)

(** C2, as the specification states it, fails on an [eventId] that has no
    string: for the event [{eventId: {toString: 1}, userId: "u1",
    eventType: "LOGIN"}], whose [eventId] is truthy and not in the empty
    store, the first [addEvent] stores the event and then throws a
    [TypeError] at the template literal of its log message, and the second
    throws again. *)
Lemma addEvent_throws_twice_on_odd_id :
  truthy (get Samples.odd_id "eventId") = true
  /\ set_has (processedEventIds boot) (get Samples.odd_id "eventId") = false
  /\ exists w1 w2,
      addEvent Samples.odd_id boot = (Throw not_primitive, w1)
      /\ stored w1 = [Samples.odd_id]
      /\ addEvent Samples.odd_id w1 = (Throw not_primitive, w2).
Proof. split; [reflexivity |]. split; [reflexivity |]. eexists _, _. repeat split. Qed.

(** C2, amended: for an event whose [eventId] is not yet in the store and
    can be converted to a string (a string, a number, any value but an
    object with an own [toString] property or an array holding one),
    [addEvent] called twice in a row returns [true] then [false], and
    afterwards [getEventCount] is exactly one more than before the first
    call.  The store is any one whose [events] refers to an existing array,
    as every reachable one does. *)
Theorem addEvent_twice (event : value) (w : World) :
  allocated w ->
  truthy (get event "eventId") = true ->
  ToString_throws (get event "eventId") = false ->
  set_has (processedEventIds w) (get event "eventId") = false ->
  exists w1 w2 n,
    addEvent event w = (Return true, w1)
    /\ addEvent event w1 = (Return false, w2)
    /\ getEventCount w = (Return n, w)
    /\ getEventCount w2 = (Return (S n), w2).
Proof.
  intros Ha Hid Hp Hs.
  destruct (get_truthy _ _ Hid) as [Ht _].
  assert (Hg : negb (truthy event) || negb (truthy (get event "eventId"))
               || set_has (processedEventIds w) (get event "eventId") = false).
  { rewrite Ht, Hid, Hs. reflexivity. }
  destruct (addEvent_accepts event w Ha Hg) as (w1 & H1 & Hst & Hids & _).
  assert (Hg1 : negb (truthy event) || negb (truthy (get event "eventId"))
                || set_has (processedEventIds w1) (get event "eventId") = true).
  { rewrite Hids, set_has_last. apply orb_true_r. }
  destruct (addEvent_rejects event w1 Hg1) as (w2 & H2 & Hsame).
  rewrite Hp in H1, H2.
  exists w1, w2, (length (stored w)).
  repeat split; try assumption.
  rewrite getEventCount_reads, (same_store_stored _ _ Hsame), Hst, length_app.
  simpl. rewrite Nat.add_1_r. reflexivity.
Qed.

Lemma addEvent_twice_witness :
  exists w1 w2 n,
    addEvent Samples.login boot = (Return true, w1)
    /\ addEvent Samples.login w1 = (Return false, w2)
    /\ getEventCount boot = (Return n, boot)
    /\ getEventCount w2 = (Return (S n), w2).
Proof.
  apply addEvent_twice;
    [exact allocated_boot | reflexivity | reflexivity | reflexivity].
Defined.

(** C3, as the specification states it, fails on an [eventId] that has no
    string: the event [{eventId: {toString: 1}, userId: "u1", eventType:
    "LOGIN"}] is not [null], has a truthy [eventId] and is new to the empty
    store, yet [addEvent] does not return [true]: it appends the event and
    throws a [TypeError]; and once the [eventId] is in the set, [addEvent]
    does not return [false] for it: it throws. *)
Lemma addEvent_neither_true_nor_false_on_odd_id :
  nullish Samples.odd_id = false
  /\ truthy (get Samples.odd_id "eventId") = true
  /\ set_has (processedEventIds boot) (get Samples.odd_id "eventId") = false
  /\ fst (addEvent Samples.odd_id boot) = Throw not_primitive
  /\ set_has (processedEventIds (snd (addEvent Samples.odd_id boot)))
             (get Samples.odd_id "eventId") = true
  /\ fst (addEvent Samples.odd_id (snd (addEvent Samples.odd_id boot)))
     = Throw not_primitive.
Proof. repeat split. Qed.

(** C3, amended: [addEvent] returns [false] and leaves the store as it is
    when its argument is [null] or absent, when the event has no [eventId]
    (none, or a falsy one), and when the [eventId] is already in the set and
    can be converted to a string; for every other event whose [eventId] can
    be converted to a string it returns [true], appends the event to the
    sequence and records its [eventId] in the set. *)
Theorem addEvent_contract (event : value) (w : World) :
  (nullish event = true \/ truthy (get event "eventId") = false ->
   exists w', addEvent event w = (Return false, w') /\ same_store w w')
  /\ (set_has (processedEventIds w) (get event "eventId") = true ->
      ToString_throws (get event "eventId") = false ->
      exists w', addEvent event w = (Return false, w') /\ same_store w w')
  /\ (allocated w ->
      nullish event = false ->
      truthy (get event "eventId") = true ->
      set_has (processedEventIds w) (get event "eventId") = false ->
      ToString_throws (get event "eventId") = false ->
      exists w', addEvent event w = (Return true, w')
                 /\ stored w' = stored w ++ [event]
                 /\ processedEventIds w' = processedEventIds w ++ [get event "eventId"]).
Proof.
  split; [| split].
  - intros H.
    assert (Hg : negb (truthy event) || negb (truthy (get event "eventId")) = true).
    { destruct H as [H | H].
      - destruct event; try discriminate H; reflexivity.
      - rewrite H. apply orb_true_r. }
    destruct (addEvent_rejects event w) as (w' & Hadd & Hs);
      [rewrite Hg; reflexivity |].
    rewrite (no_id_has_a_string event Hg) in Hadd. exists w'. split; assumption.
  - intros H Hp.
    destruct (addEvent_rejects event w) as (w' & Hadd & Hs);
      [rewrite H; apply orb_true_r |].
    rewrite Hp in Hadd. exists w'. split; assumption.
  - intros Ha _ Hid Hs Hp.
    destruct (get_truthy _ _ Hid) as [Ht _].
    destruct (addEvent_accepts event w Ha) as (w' & H1 & Hst & Hids & _).
    { rewrite Ht, Hid, Hs. reflexivity. }
    rewrite Hp in H1. exists w'. auto.
Qed.

Lemma addEvent_contract_witness :
  (exists w', addEvent VNull boot = (Return false, w') /\ same_store boot w')
  /\ (exists w', addEvent Samples.anonymous boot = (Return false, w')
                 /\ same_store boot w')
  /\ (exists w', addEvent Samples.login boot = (Return true, w')
                 /\ stored w' = stored boot ++ [Samples.login]
                 /\ processedEventIds w'
                    = processedEventIds boot ++ [get Samples.login "eventId"]).
Proof.
  split; [| split].
  - apply (proj1 (addEvent_contract VNull boot)). left. reflexivity.
  - apply (proj1 (addEvent_contract Samples.anonymous boot)). right. reflexivity.
  - apply (proj2 (proj2 (addEvent_contract Samples.login boot)));
      [exact allocated_boot | reflexivity | reflexivity | reflexivity | reflexivity].
Defined.

(** C8: in every state reachable from the empty store the set of ids and
    the sequence are in lockstep, and every operation of the Event Store
    (and a caller updating an array it was handed) leads to a state where
    they are again. *)
Theorem lockstep_reachable (w : World) :
  reachable w ->
  lockstep w /\ (forall w', step w w' -> lockstep w').
Proof.
  intros Hr. pose proof (inv_reachable w Hr) as Hi. split.
  - apply inv_lockstep, Hi.
  - intros w' Hs. apply inv_lockstep. exact (inv_step _ _ Hs Hi).
Qed.

Lemma lockstep_reachable_witness :
  lockstep (snd (addEvent Samples.login (snd (addEvent Samples.login boot)))).
Proof.
  apply (lockstep_reachable (snd (addEvent Samples.login boot))).
  - apply reachable_step with (w := boot); [apply reachable_boot | apply step_addEvent].
  - apply step_addEvent.
Defined.

(** C9: [getAllEvents] returns the stored events in insertion order in an
    array of its own: whatever a caller then writes into that array, the
    store is as before, and [getEventCount] and a new [getAllEvents] give
    the original contents. *)
Theorem getAllEvents_defensive_copy (w : World) :
  allocated w ->
  exists copy w1,
    getAllEvents w = (Return copy, w1)
    /\ array_read copy w1 = (Return (stored w), w1)
    /\ copy <> events w1
    /\ forall xs, exists w2,
        array_write copy xs w1 = (Return tt, w2)
        /\ array_read copy w2 = (Return xs, w2)
        /\ stored w2 = stored w
        /\ processedEventIds w2 = processedEventIds w
        /\ getEventCount w2 = (Return (length (stored w)), w2)
        /\ exists copy' w3,
            getAllEvents w2 = (Return copy', w3)
            /\ array_read copy' w3 = (Return (stored w), w3).
Proof.
  intros Ha. unfold allocated in Ha.
  exists (length (arrays w)), (with_arrays (arrays w ++ [stored w]) w).
  split; [apply getAllEvents_copies |].
  split.
  { unfold array_read, gets. simpl.
    rewrite lookup_app_r, Nat.sub_diag by lia. reflexivity. }
  split; [simpl; lia |].
  intros xs.
  set (w2 := with_arrays (<[length (arrays w) := xs]> (arrays w ++ [stored w])) w).
  assert (Hst : stored w2 = stored w).
  { unfold stored. simpl.
    rewrite list_lookup_insert_ne, lookup_app_l by lia. reflexivity. }
  exists w2. split; [reflexivity |].
  split.
  { unfold array_read, gets. simpl.
    rewrite list_lookup_insert_eq by (rewrite length_app; simpl; lia). reflexivity. }
  split; [exact Hst |].
  split; [reflexivity |].
  split; [rewrite getEventCount_reads, Hst; reflexivity |].
  eexists _, _. split; [apply getAllEvents_copies |].
  unfold array_read, gets. simpl.
  rewrite lookup_app_r, length_insert, Nat.sub_diag by (rewrite length_insert; lia).
  simpl. rewrite Hst. reflexivity.
Qed.

Lemma getAllEvents_defensive_copy_witness :
  exists copy w1,
    getAllEvents (snd (addEvent Samples.login boot)) = (Return copy, w1)
    /\ array_read copy w1 = (Return [Samples.login], w1)
    /\ exists w2,
        array_write copy [] w1 = (Return tt, w2)
        /\ array_read copy w2 = (Return [], w2)
        /\ getEventCount w2 = (Return 1, w2).
Proof.
  destruct (getAllEvents_defensive_copy (snd (addEvent Samples.login boot)))
    as (copy & w1 & Hget & Hread & _ & Hframe).
  { unfold allocated. simpl. lia. }
  exists copy, w1. split; [exact Hget |]. split; [exact Hread |].
  destruct (Hframe []) as (w2 & Hw & Hr & _ & _ & Hc & _).
  exists w2. split; [exact Hw |]. split; [exact Hr | exact Hc].
Defined.

End EventStoreProps.

(* ===================================================================== *)
(** * Properties of the consumer *)
(* ===================================================================== *)

Module KafkaConsumerProps.
Import KafkaConsumer.

Section Consumer.
Variable JSON_parse : string -> nat -> option (value * nat).
Variable toISOString : nat -> string.

Lemma member_defined (event : value) (k : string) :
  nullish event = false -> member event k = ret (get event k).
Proof. intros H. unfold member. rewrite H. reflexivity. Qed.

Lemma processEvent_invalid (event : value) (w : World) :
  nullish event = false ->
  lacks_field event = true ->
  exists w', processEvent toISOString event w = (Return false, w')
             /\ same_store w w' /\ stdout w' = stdout w.
Proof.
  intros Hn Hl. unfold lacks_field in Hl.
  unfold processEvent, lazy_or, not_member.
  rewrite !member_defined by exact Hn. cbv [try_catch bind ret].
  destruct (negb (truthy (get event "eventId"))).
  - eexists. split; [reflexivity | repeat split].
  - destruct (negb (truthy (get event "userId"))).
    + eexists. split; [reflexivity | repeat split].
    + simpl in Hl. rewrite Hl. eexists. split; [reflexivity | repeat split].
Qed.

(** Whatever the event, a duplicate is written to stdout before the
    store turns it down. *)
Lemma processEvent_duplicate (event : value) (w : World) :
  nullish event = false ->
  lacks_field event = false ->
  set_has (processedEventIds w) (get event "eventId") = true ->
  exists w', processEvent toISOString event w = (Return false, w')
             /\ same_store w w'
             /\ stdout w' = stdout w ++ [mkConsole "EVENT_CONSUMED"
                                           (get event "eventId") (get event "userId")
                                           (get event "eventType")
                                           (toISOString (dates w))].
Proof.
  intros Hn Hl Hs. unfold lacks_field in Hl.
  apply orb_false_iff in Hl. destruct Hl as [Hl He].
  apply orb_false_iff in Hl. destruct Hl as [Hi Hu].
  unfold processEvent, lazy_or, not_member.
  rewrite !member_defined by exact Hn. cbv [try_catch bind ret].
  rewrite Hi, Hu, He.
  unfold new_Date_toISOString, console_log. cbv [bind gets modify ret].
  match goal with
  | |- context [EventStore.addEvent event ?w0] =>
      destruct (EventStoreProps.addEvent_rejects event w0) as (w' & Hadd & Hsame);
      [| pose proof (EventStoreProps.addEvent_stdout event w0) as Ho;
         rewrite Hadd in Ho; rewrite Hadd]
  end.
  { apply orb_true_iff. right. exact Hs. }
  destruct Hsame as (Ha & Hev & Hids). cbn in Ha, Hev, Hids, Ho.
  destruct (ToString_throws (get event "eventId"));
    (eexists; split; [reflexivity |];
     split; [split; [exact Ha | split; [exact Hev | exact Hids]] | exact Ho]).
Qed.

Lemma handleMessage_returns (topic : string) (partition : value)
      (message : KafkaMessage) (w : World) :
  exists w', handleMessage JSON_parse toISOString topic partition message w
             = (Return tt, w').
Proof.
  unfold handleMessage, try_catch.
  match goal with |- context [match ?b w with _ => _ end] => destruct (b w) as [[[] | e] w1] end.
  - eexists. reflexivity.
  - eexists. reflexivity.
Qed.

Lemma handleMessage_invalid (topic : string) (partition : value)
      (message : KafkaMessage) (w : World) (text : string) (event : value)
      (n' : nat) :
  value_buffer message = Some text ->
  JSON_parse text (objects w) = Some (event, n') ->
  nullish event = false ->
  lacks_field event = true ->
  exists w', handleMessage JSON_parse toISOString topic partition message w
             = (Return tt, w')
             /\ same_store w w' /\ stdout w' = stdout w.
Proof.
  intros Hv Hp Hn Hl.
  unfold handleMessage, value_toString, parse.
  rewrite Hv. cbv [try_catch bind ret gets]. rewrite Hp.
  cbv [modify]. rewrite !member_defined by exact Hn.
  cbv [ret log modify].
  match goal with
  | |- context [processEvent toISOString event ?w0] =>
      destruct (processEvent_invalid event w0 Hn Hl) as (w1 & -> & Hs & Ho)
  end.
  eexists. split; [reflexivity |].
  destruct Hs as (Ha & He & Hi). cbn in *.
  repeat split; assumption.
Qed.

(** A tombstone, a text that is not JSON and the JSON text [null] are
    dropped as well: the [TypeError] or [SyntaxError] is caught before
    [processEvent] is reached. *)
Lemma handleMessage_undeserializable (topic : string) (partition : value)
      (message : KafkaMessage) (w : World) :
  match value_buffer message with
  | None => True
  | Some text =>
      match JSON_parse text (objects w) with
      | None => True
      | Some (event, _) => nullish event = true
      end
  end ->
  exists w', handleMessage JSON_parse toISOString topic partition message w
             = (Return tt, w')
             /\ same_store w w' /\ stdout w' = stdout w.
Proof.
  intros H. unfold handleMessage, value_toString, parse.
  destruct (value_buffer message) as [text |].
  - cbv [try_catch bind ret gets].
    destruct (JSON_parse text (objects w)) as [[event n'] |].
    + unfold member. cbv [modify]. rewrite H.
      eexists. split; [reflexivity | repeat split].
    + eexists. split; [reflexivity | repeat split].
  - eexists. split; [reflexivity | repeat split].
Qed.

Lemma eachMessage_returns (deliveries : list (string * value * KafkaMessage))
      (w : World) :
  exists w', eachMessage JSON_parse toISOString deliveries w = (Return tt, w').
Proof.
  revert w. induction deliveries as [| [[topic partition] message] rest IH]; intros w.
  - eexists. reflexivity.
  - simpl. unfold bind.
    destruct (handleMessage_returns topic partition message w) as (w1 & ->).
    apply IH.
Qed.

(** C6: an event without [eventId], [userId] or [eventType] makes
    [processEvent] return [false] with the store and stdout as they
    were, so does the handling of a message that carries one, and
    [handleMessage] never throws: the run over any sequence of
    deliveries handles them all. *)
Theorem malformed_is_dropped :
  (forall event w,
      nullish event = false ->
      lacks_field event = true ->
      exists w', processEvent toISOString event w = (Return false, w')
                 /\ same_store w w' /\ stdout w' = stdout w)
  /\ (forall topic partition message w text event n',
         value_buffer message = Some text ->
         JSON_parse text (objects w) = Some (event, n') ->
         nullish event = false ->
         lacks_field event = true ->
         exists w', handleMessage JSON_parse toISOString topic partition message w
                    = (Return tt, w')
                    /\ same_store w w' /\ stdout w' = stdout w)
  /\ (forall topic partition message w,
         exists w', handleMessage JSON_parse toISOString topic partition message w
                    = (Return tt, w'))
  /\ (forall deliveries w,
         exists w', eachMessage JSON_parse toISOString deliveries w = (Return tt, w')).
Proof.
  split; [exact processEvent_invalid |].
  split; [exact handleMessage_invalid |].
  split; [exact handleMessage_returns | exact eachMessage_returns].
Qed.

End Consumer.

Lemma malformed_is_dropped_witness :
  (exists w', processEvent Samples.clock Samples.anonymous boot = (Return false, w')
              /\ same_store boot w' /\ stdout w' = stdout boot)
  /\ (exists w', handleMessage Samples.parse_table Samples.clock Samples.topic
                   (VNum (Zero false))
                   (mkKafkaMessage (Some "login without id") "0") boot
                 = (Return tt, w')
                 /\ same_store boot w' /\ stdout w' = stdout boot).
Proof.
  destruct (malformed_is_dropped Samples.parse_table Samples.clock)
    as (Hp & Hh & _ & _).
  split.
  - apply Hp; reflexivity.
  - apply (Hh _ _ _ _ "login without id"
              (VObj 0 [("userId", VStr "u1"); ("eventType", VStr "LOGIN")]) 1);
      reflexivity.
Defined.

(** C1 does not hold of the code: [processEvent] writes the
    EVENT_CONSUMED line before it calls [addEvent].  Handling the event
    [{eventId: "e1", userId: "u1", eventType: "LOGIN"}] twice from the
    empty store, the second call returns [false] ([addEvent] turns the
    duplicate down, one entry is stored) and still adds a second
    EVENT_CONSUMED line to stdout. *)
Theorem duplicate_is_announced (toISOString : nat -> string) :
  exists w1 w2,
    processEvent toISOString Samples.login boot = (Return true, w1)
    /\ fst (EventStore.addEvent Samples.login w1) = Return false
    /\ processEvent toISOString Samples.login w1 = (Return false, w2)
    /\ stored w2 = [Samples.login]
    /\ stdout w1 = [mkConsole "EVENT_CONSUMED" (VStr "e1") (VStr "u1") (VStr "LOGIN")
                              (toISOString 0)]
    /\ stdout w2 = [mkConsole "EVENT_CONSUMED" (VStr "e1") (VStr "u1") (VStr "LOGIN")
                              (toISOString 0);
                    mkConsole "EVENT_CONSUMED" (VStr "e1") (VStr "u1") (VStr "LOGIN")
                              (toISOString 1)].
Proof. eexists _, _. repeat split. Qed.

End KafkaConsumerProps.

(* ===================================================================== *)
(** * Properties of the producer and of the controller *)
(* ===================================================================== *)

Module EventControllerProps.
Import EventController.

Section Controller.
Variable topic : string.
Variable JSON_stringify : value -> string.
Variable client_send : ProducerRecord -> outcome (list RecordMetadata).
Variable toISOString : nat -> string.
Variable uuidv4 : nat -> string.

Lemma publishEvent_not_connected (event : value) (w : World) :
  isConnected w = false ->
  KafkaProducer.publishEvent topic JSON_stringify client_send event w
  = (Throw (new_Error "Producer is not connected to Kafka"), w).
Proof.
  intros H. unfold KafkaProducer.publishEvent, bind, gets. rewrite H. reflexivity.
Qed.

Lemma publishEvent_rejected (id : nat) (props : list (string * value))
      (e : Error) (w : World) :
  isConnected w = true ->
  (forall record, client_send record = Throw e) ->
  exists w',
    KafkaProducer.publishEvent topic JSON_stringify client_send (VObj id props) w
    = (Throw e, w')
    /\ length (sent w') = S (length (sent w)).
Proof.
  intros Hc Hs.
  unfold KafkaProducer.publishEvent, KafkaProducer.producer_send, member, lift.
  cbv [bind gets]. rewrite Hc. cbv [negb nullish try_catch bind ret modify].
  rewrite Hs. cbv [log modify throw bind].
  eexists. split; [reflexivity |].
  cbn. rewrite length_app. simpl. lia.
Qed.

(** The object literal that [generateEvent] validates has the three
    properties of the request body. *)
Lemma candidate_validation (req_body : value) (n : nat) :
  truthy req_body = true ->
  Validator.validateEventPayload
    (VObj n [("userId", get req_body "userId");
             ("eventType", get req_body "eventType");
             ("payload", get req_body "payload")])
  = Validator.validateEventPayload req_body.
Proof.
  intros H. unfold Validator.validateEventPayload. rewrite H. reflexivity.
Qed.

Lemma valid_request_truthy (req_body : value) :
  valid_request req_body -> truthy req_body = true /\ nullish req_body = false.
Proof.
  unfold valid_request, Validator.validateEventPayload.
  destruct req_body; simpl; try discriminate; intros H; try discriminate H;
    split; try reflexivity.
  - destruct b; [reflexivity | discriminate H].
  - destruct x; try reflexivity; discriminate H.
  - destruct (String.eqb s ""); [discriminate H | reflexivity].
Qed.

(** The path of [generateEvent] up to the call of [publishEvent]. *)
Lemma generateEvent_publish_fails (req_body : value) (w : World) (e : Error)
      (P : list ProducerRecord -> Prop) :
  valid_request req_body ->
  (forall id props w0,
      isConnected w0 = isConnected w ->
      sent w0 = sent w ->
      exists w',
        KafkaProducer.publishEvent topic JSON_stringify client_send (VObj id props) w0
        = (Throw e, w')
        /\ P (sent w')) ->
  exists w',
    generateEvent topic JSON_stringify client_send toISOString uuidv4 req_body w
    = (Return (if includes (JS.message e) "not connected"
               then service_unavailable else internal_server_error), w')
    /\ P (sent w').
Proof.
  intros Hv Hp.
  destruct (valid_request_truthy _ Hv) as [Ht Hn].
  unfold generateEvent, destructure. rewrite Hn.
  unfold new_object, draw_uuid, new_Date_toISOString.
  cbv [try_catch bind ret gets modify].
  rewrite candidate_validation by exact Ht.
  unfold valid_request in Hv. rewrite Hv. cbv [negb].
  destruct (truthy (get req_body "payload")).
  - match goal with
    | |- context [KafkaProducer.publishEvent _ _ _ (VObj ?i ?p) ?w0] =>
        destruct (Hp i p w0) as (w' & -> & Hl); [reflexivity | reflexivity |]
    end.
    cbv [log modify].
    destruct (includes (JS.message e) "not connected");
      (eexists; split; [reflexivity | exact Hl]).
  - match goal with
    | |- context [KafkaProducer.publishEvent _ _ _ (VObj ?i ?p) ?w0] =>
        destruct (Hp i p w0) as (w' & -> & Hl); [reflexivity | reflexivity |]
    end.
    cbv [log modify].
    destruct (includes (JS.message e) "not connected");
      (eexists; split; [reflexivity | exact Hl]).
Qed.

(** C7, amended: for every valid request, [publishEvent] on a producer
    that is not connected throws at once, nothing being sent, and
    [generateEvent] answers 503 "Service unavailable"; on a connected
    producer whose broker rejects the send with an error whose message
    does not contain "not connected", [generateEvent] answers 500
    "Internal server error", after one send. *)
Theorem publish_failures_are_told_apart (req_body : value) (w : World) :
  valid_request req_body ->
  (isConnected w = false ->
   (forall event,
       KafkaProducer.publishEvent topic JSON_stringify client_send event w
       = (Throw (new_Error "Producer is not connected to Kafka"), w))
   /\ exists w',
       generateEvent topic JSON_stringify client_send toISOString uuidv4 req_body w
       = (Return service_unavailable, w')
       /\ sent w' = sent w)
  /\ (isConnected w = true ->
      forall e,
        (forall record, client_send record = Throw e) ->
        includes (JS.message e) "not connected" = false ->
        exists w',
          generateEvent topic JSON_stringify client_send toISOString uuidv4 req_body w
          = (Return internal_server_error, w')
          /\ length (sent w') = S (length (sent w)))
  /\ statusCode service_unavailable <> statusCode internal_server_error.
Proof.
  intros Hv. split; [| split].
  - intros Hc. split; [intros event; apply publishEvent_not_connected, Hc |].
    apply (generateEvent_publish_fails req_body w
             (new_Error "Producer is not connected to Kafka")
             (fun s => s = sent w) Hv).
    intros id props w0 Hc0 Hs0. exists w0.
    split; [apply publishEvent_not_connected; congruence | exact Hs0].
  - intros Hc e Hs Hm.
    destruct (generateEvent_publish_fails req_body w e
                (fun s => length s = S (length (sent w))) Hv) as (w' & Hg & Hl).
    { intros id props w0 Hc0 Hs0.
      destruct (publishEvent_rejected id props e w0) as (w' & Hp & Hl);
        [congruence | exact Hs |].
      exists w'. split; [exact Hp | rewrite Hl, Hs0; reflexivity]. }
    rewrite Hm in Hg. exists w'. split; [exact Hg | exact Hl].
  - discriminate.
Qed.

(** C10: the body of the health check always carries the status "ok";
    only [kafka.producer] and the status code follow the connection
    flag of the producer, 503 and "disconnected" when it is not
    connected. *)
Theorem health_status_is_always_ok (w : World) :
  exists resp w',
    healthCheck toISOString w = (Return resp, w')
    /\ body_field "status" (body resp) = Some (JStr "ok")
    /\ statusCode resp = (if isConnected w then 200 else 503)
    /\ body_field "kafka" (body resp)
       = Some (JObj [("producer", JStr (if isConnected w then "connected"
                                       else "disconnected"))])
    /\ body_field "eventStore" (body resp)
       = Some (JObj [("processedEvents", JNum (length (stored w)))]).
Proof.
  exists (mkResponse
            (if isConnected w then 200 else 503)
            (JObj [("status", JStr "ok");
                   ("timestamp", JStr (toISOString (dates w)));
                   ("service", JStr "kafka-event-microservice");
                   ("kafka", JObj [("producer",
                                    JStr (if isConnected w then "connected"
                                          else "disconnected"))]);
                   ("eventStore",
                    JObj [("processedEvents", JNum (length (stored w)))])])),
         (with_dates (S (dates w)) w).
  repeat split.
Qed.

End Controller.

Lemma publish_failures_are_told_apart_witness :
  (exists w',
      generateEvent Samples.topic Samples.wire (Samples.rejecting "Request timed out")
                    Samples.clock Samples.uuid Samples.request boot
      = (Return service_unavailable, w')
      /\ sent w' = sent boot)
  /\ (exists w',
         generateEvent Samples.topic Samples.wire (Samples.rejecting "Request timed out")
                       Samples.clock Samples.uuid Samples.request
                       (with_isConnected true boot)
         = (Return internal_server_error, w')
         /\ length (sent w') = S (length (sent (with_isConnected true boot)))).
Proof.
  split.
  - apply (publish_failures_are_told_apart Samples.topic Samples.wire
             (Samples.rejecting "Request timed out") Samples.clock Samples.uuid
             Samples.request boot); reflexivity.
  - apply (publish_failures_are_told_apart Samples.topic Samples.wire
             (Samples.rejecting "Request timed out") Samples.clock Samples.uuid
             Samples.request (with_isConnected true boot)) with
      (e := new_Error "Request timed out"); reflexivity.
Defined.

(** C7, as the specification states it, fails when the broker's own error
    mentions "not connected": on a connected producer whose broker rejects
    the send with the error "Broker not connected", the valid request
    [{userId: "u1", eventType: "LOGIN"}] is answered 503 "Service
    unavailable", the very response of a producer that is not connected. *)
Lemma broker_rejection_reported_as_unavailable :
  valid_request Samples.request
  /\ (exists w',
         generateEvent Samples.topic Samples.wire (Samples.rejecting "Broker not connected")
                       Samples.clock Samples.uuid Samples.request
                       (with_isConnected true boot)
         = (Return service_unavailable, w')
         /\ length (sent w') = 1)
  /\ (exists w',
         generateEvent Samples.topic Samples.wire (Samples.rejecting "Broker not connected")
                       Samples.clock Samples.uuid Samples.request boot
         = (Return service_unavailable, w')
         /\ sent w' = []).
Proof.
  split; [reflexivity |].
  split; eexists; split; reflexivity.
Qed.

End EventControllerProps.

(* ===================================================================== *)
(** * Further properties of the validator *)
(* ===================================================================== *)

Module ValidatorMore.
Import Validator.

Lemma typeof_string (v : value) :
  negb (truthy v) || negb (String.eqb (typeof v) "string") = negb (nonempty_string v).
Proof.
  destruct v as [| | b | x | s | |]; try reflexivity.
  - destruct b; reflexivity.
  - destruct x; reflexivity.
  - simpl. rewrite orb_false_r. reflexivity.
Qed.

Lemma check_userId_shape (event : value) :
  check_userId event
  = if nonempty_string (get event "userId") then [] else [err_userId].
Proof.
  unfold check_userId. rewrite typeof_string.
  destruct (nonempty_string _); reflexivity.
Qed.

Lemma includes_known (v : value) :
  nonempty_string v = true ->
  array_includes (map VStr VALID_EVENT_TYPES) v = known_eventType v.
Proof.
  destruct v as [| | b | x | s | |]; try discriminate. intros _.
  unfold array_includes, known_eventType, VALID_EVENT_TYPES. simpl.
  reflexivity.
Qed.

Lemma known_is_nonempty (v : value) :
  known_eventType v = true -> nonempty_string v = true.
Proof.
  destruct v as [| | b | x | s | |]; try discriminate.
  unfold known_eventType, VALID_EVENT_TYPES. simpl.
  destruct (String.eqb_spec s ""); [subst; discriminate | reflexivity].
Qed.

Lemma check_eventType_shape (event : value) :
  check_eventType event
  = if known_eventType (get event "eventType") then []
    else if nonempty_string (get event "eventType") then [err_membership]
         else [err_eventType].
Proof.
  unfold check_eventType. rewrite typeof_string.
  destruct (nonempty_string (get event "eventType")) eqn:Hn.
  - rewrite (includes_known _ Hn).
    destruct (known_eventType _); reflexivity.
  - simpl. destruct (known_eventType (get event "eventType")) eqn:Hk; [| reflexivity].
    rewrite (known_is_nonempty _ Hk) in Hn. discriminate Hn.
Qed.

Lemma check_payload_shape (event : value) :
  check_payload event = if scalar (get event "payload") then [err_payload] else [].
Proof.
  unfold check_payload. destruct (get event "payload"); reflexivity.
Qed.

(** X1: the validator accepts a candidate exactly when it is truthy, its
    [userId] is a non-empty string, its [eventType] is one of LOGIN, LOGOUT,
    PRODUCT_VIEW and its [payload] is not a string, number or boolean; and
    [valid] is [true] exactly when the list of errors is empty. *)
Theorem valid_exactly_when (event : value) :
  valid (validateEventPayload event)
  = truthy event
    && nonempty_string (get event "userId")
    && known_eventType (get event "eventType")
    && negb (scalar (get event "payload"))
  /\ (valid (validateEventPayload event) = true
      <-> errors (validateEventPayload event) = []).
Proof.
  unfold validateEventPayload.
  destruct (truthy event); simpl; [| split; [reflexivity | split; discriminate]].
  rewrite check_userId_shape, check_eventType_shape, check_payload_shape.
  destruct (nonempty_string (get event "userId")),
           (known_eventType (get event "eventType")),
           (nonempty_string (get event "eventType")),
           (scalar (get event "payload")); simpl;
    split; try reflexivity; split; (discriminate || reflexivity).
Qed.

(** X2: the errors come in the order of the fields, [userId], [eventType],
    [payload], at most one per field: the list of errors is a sublist of
    one of the two lists below, so it has at most three errors, none twice,
    and never both the type error and the membership error of
    [eventType]. *)
Theorem errors_in_field_order (event : value) :
  truthy event = true ->
  sublist (errors (validateEventPayload event)) [err_userId; err_eventType; err_payload]
  \/ sublist (errors (validateEventPayload event)) [err_userId; err_membership; err_payload].
Proof.
  intros Ht. unfold validateEventPayload. rewrite Ht. simpl.
  rewrite check_userId_shape, check_eventType_shape, check_payload_shape.
  destruct (nonempty_string (get event "userId")),
           (known_eventType (get event "eventType")),
           (nonempty_string (get event "eventType")),
           (scalar (get event "payload")); simpl;
    first [ left; solve [eauto 8 using sublist_nil, sublist_skip, sublist_cons]
          | right; solve [eauto 8 using sublist_nil, sublist_skip, sublist_cons] ].
Qed.

Lemma errors_in_field_order_witness :
  sublist (errors (validateEventPayload
                     (VObj 0 [("eventType", VStr "BOGUS"); ("payload", VStr "x")])))
          [err_userId; err_eventType; err_payload]
  \/ sublist (errors (validateEventPayload
                        (VObj 0 [("eventType", VStr "BOGUS"); ("payload", VStr "x")])))
             [err_userId; err_membership; err_payload].
Proof. apply errors_in_field_order. reflexivity. Defined.

(** X3: the error "Event payload is required" is given exactly for the falsy
    candidates ([null], [undefined], [false], [0], [NaN], the empty
    string), and then it is the only error. *)
Theorem required_exactly_for_falsy (event : value) :
  (In err_required (errors (validateEventPayload event)) <-> truthy event = false)
  /\ (truthy event = false ->
      validateEventPayload event = mkValidation false [err_required]).
Proof.
  unfold validateEventPayload.
  destruct (truthy event); simpl.
  - split; [| discriminate]. split; [| discriminate].
    rewrite check_userId_shape, check_eventType_shape, check_payload_shape.
    destruct (nonempty_string (get event "userId")),
             (known_eventType (get event "eventType")),
             (nonempty_string (get event "eventType")),
             (scalar (get event "payload")); simpl; intros H;
      repeat (destruct H as [H | H]; [discriminate H |]); destruct H.
  - split; [| reflexivity]. split; [reflexivity | intros _; left; reflexivity].
Qed.

Lemma required_exactly_for_falsy_witness :
  validateEventPayload (VNum (Zero false)) = mkValidation false [err_required]
  /\ validateEventPayload (VStr "") = mkValidation false [err_required].
Proof.
  split; apply (proj2 (required_exactly_for_falsy _)); reflexivity.
Defined.

(** X4: only [userId], [eventType] and [payload] are looked at: two truthy
    candidates that agree on these three properties get the same verdict
    and the same errors. *)
Theorem only_three_fields_matter (a b : value) :
  truthy a = true ->
  truthy b = true ->
  get a "userId" = get b "userId" ->
  get a "eventType" = get b "eventType" ->
  get a "payload" = get b "payload" ->
  validateEventPayload a = validateEventPayload b.
Proof.
  intros Ha Hb Hu He Hp. unfold validateEventPayload. rewrite Ha, Hb. simpl.
  unfold check_userId, check_eventType, check_payload.
  rewrite Hu, He, Hp. reflexivity.
Qed.

Lemma only_three_fields_matter_witness :
  validateEventPayload
    (VObj 0 [("userId", VStr "u1"); ("eventType", VStr "LOGIN");
             ("eventId", VStr "chosen-by-caller"); ("admin", VBool true)])
  = validateEventPayload Samples.request.
Proof. apply only_three_fields_matter; reflexivity. Defined.

End ValidatorMore.

(* ===================================================================== *)
(** * Further properties of the Event Store *)
(* ===================================================================== *)

Module EventStoreMore.
Import EventStore EventStoreProps.

Lemma addEvent_guard (event : value) (w : World) :
  allocated w ->
  exists w',
    addEvent event w
    = (if ToString_throws (get event "eventId") then Throw not_primitive
       else Return (negb (negb (truthy event) || negb (truthy (get event "eventId"))
                          || set_has (processedEventIds w) (get event "eventId"))),
       w')
    /\ events w' = events w
    /\ length (arrays w') = length (arrays w)
    /\ (forall l, l <> events w -> arrays w' !! l = arrays w !! l)
    /\ stored w' = stored w
                   ++ (if negb (truthy event) || negb (truthy (get event "eventId"))
                          || set_has (processedEventIds w) (get event "eventId")
                       then [] else [event])
    /\ processedEventIds w'
       = processedEventIds w
         ++ (if negb (truthy event) || negb (truthy (get event "eventId"))
                || set_has (processedEventIds w) (get event "eventId")
             then [] else [get event "eventId"]).
Proof.
  intros Ha.
  destruct (negb (truthy event) || negb (truthy (get event "eventId"))
            || set_has (processedEventIds w) (get event "eventId")) eqn:Hg.
  - destruct (addEvent_rejects event w Hg) as (w' & Hadd & Hs).
    pose proof (same_store_stored _ _ Hs) as Hst.
    destruct Hs as (Harr & Hev & Hids).
    exists w'. rewrite Hst, Hids, Harr, !app_nil_r.
    repeat split; try assumption; reflexivity.
  - destruct (addEvent_accepts event w Ha Hg) as (w' & Hadd & Hst & Hids & Hev & Hl & Ho).
    exists w'. repeat split; assumption.
Qed.

Lemma addEvent_states (event : value) (w : World) :
  allocated w ->
  allocated (snd (addEvent event w))
  /\ stored (snd (addEvent event w))
     = stored w
       ++ (if negb (truthy event) || negb (truthy (get event "eventId"))
              || set_has (processedEventIds w) (get event "eventId")
           then [] else [event])
  /\ processedEventIds (snd (addEvent event w))
     = processedEventIds w
       ++ (if negb (truthy event) || negb (truthy (get event "eventId"))
              || set_has (processedEventIds w) (get event "eventId")
           then [] else [get event "eventId"])
  /\ (forall l, l <> events w ->
                arrays (snd (addEvent event w)) !! l = arrays w !! l).
Proof.
  intros Ha. destruct (addEvent_guard event w Ha) as (w' & -> & Hev & Hl & Ho & Hst & Hids).
  cbn [snd]. split; [unfold allocated; rewrite Hev, Hl; exact Ha |].
  split; [exact Hst |]. split; [exact Hids | exact Ho].
Qed.

(** X5: when [addEvent] returns, it returns [true] exactly when the store
    has grown, and then it has grown by that event at the end of the
    sequence and by its [eventId] at the end of the set; no call removes or
    reorders what is stored.  For an [eventId] that has no string the call
    throws a [TypeError] instead of returning, after the same change, or
    none, to the store. *)
Theorem addEvent_result_is_growth (event : value) (w : World) :
  allocated w ->
  exists b w',
    addEvent event w
    = (if ToString_throws (get event "eventId") then Throw not_primitive
       else Return b, w')
    /\ stored w' = stored w ++ (if b then [event] else [])
    /\ processedEventIds w'
       = processedEventIds w ++ (if b then [get event "eventId"] else []).
Proof.
  intros Ha. destruct (addEvent_guard event w Ha) as (w' & Hadd & _ & _ & _ & Hst & Hids).
  eexists _, w'. split; [exact Hadd |].
  destruct (negb (truthy event) || negb (truthy (get event "eventId"))
            || set_has (processedEventIds w) (get event "eventId"));
    split; assumption.
Qed.

Lemma addEvent_result_is_growth_witness :
  (exists b w',
      addEvent Samples.anonymous boot = (Return b, w')
      /\ stored w' = stored boot ++ (if b then [Samples.anonymous] else []))
  /\ (exists (b : bool) w',
         addEvent Samples.odd_id boot = (Throw not_primitive, w')
         /\ stored w' = stored boot ++ (if b then [Samples.odd_id] else [])).
Proof.
  split.
  - destruct (addEvent_result_is_growth Samples.anonymous boot allocated_boot)
      as (b & w' & Hadd & Hst & _).
    exists b, w'. split; [exact Hadd | exact Hst].
  - destruct (addEvent_result_is_growth Samples.odd_id boot allocated_boot)
      as (b & w' & Hadd & Hst & _).
    exists b, w'. split; [exact Hadd | exact Hst].
Defined.

(** X6: whatever the event and however the first call ended, calling
    [addEvent] again with the same event leaves the store as the first call
    left it; the second call returns [false], or throws a [TypeError] when
    the [eventId] has no string. *)
Theorem addEvent_again_is_rejected (event : value) (w : World) :
  allocated w ->
  exists w2,
    addEvent event (snd (addEvent event w))
    = (if ToString_throws (get event "eventId") then Throw not_primitive
       else Return false, w2)
    /\ same_store (snd (addEvent event w)) w2.
Proof.
  intros Ha. destruct (addEvent_guard event w Ha) as (w1 & Hadd & _ & _ & _ & _ & Hids).
  rewrite Hadd. cbn [snd]. apply addEvent_rejects. rewrite Hids.
  destruct (negb (truthy event) || negb (truthy (get event "eventId"))) eqn:Hg;
    [reflexivity |].
  simpl in *.
  destruct (set_has (processedEventIds w) (get event "eventId")) eqn:Hs.
  - rewrite app_nil_r. exact Hs.
  - apply set_has_last.
Qed.

Lemma addEvent_again_is_rejected_witness :
  exists w2,
    addEvent Samples.login (snd (addEvent Samples.login boot)) = (Return false, w2)
    /\ same_store (snd (addEvent Samples.login boot)) w2.
Proof. apply (addEvent_again_is_rejected Samples.login boot). exact allocated_boot. Defined.

(** X7: two events with different [eventId]s that can be converted to a
    string, neither in the store, are both accepted and are stored in the
    order of the calls; the count grows by two. *)
Theorem two_events_in_call_order (a b : value) (w : World) :
  allocated w ->
  truthy (get a "eventId") = true ->
  truthy (get b "eventId") = true ->
  ToString_throws (get a "eventId") = false ->
  ToString_throws (get b "eventId") = false ->
  set_has (processedEventIds w) (get a "eventId") = false ->
  set_has (processedEventIds w) (get b "eventId") = false ->
  sameValueZero (get b "eventId") (get a "eventId") = false ->
  exists w1 w2,
    addEvent a w = (Return true, w1)
    /\ addEvent b w1 = (Return true, w2)
    /\ stored w2 = stored w ++ [a; b]
    /\ getEventCount w2 = (Return (2 + length (stored w)), w2).
Proof.
  intros Hal Ha Hb Hpa Hpb Hsa Hsb Hab.
  destruct (get_truthy _ _ Ha) as [Hta _], (get_truthy _ _ Hb) as [Htb _].
  destruct (addEvent_accepts a w Hal) as (w1 & H1 & Hst1 & Hids1 & Hev1 & Hl1 & _).
  { rewrite Hta, Ha, Hsa. reflexivity. }
  assert (Hal1 : allocated w1) by (unfold allocated; rewrite Hev1, Hl1; exact Hal).
  destruct (addEvent_accepts b w1 Hal1) as (w2 & H2 & Hst2 & _).
  { rewrite Htb, Hb, Hids1, set_has_app, Hsb. unfold set_has. simpl.
    rewrite Hab. reflexivity. }
  rewrite Hpa in H1. rewrite Hpb in H2.
  exists w1, w2. split; [exact H1 |]. split; [exact H2 |].
  assert (Hst : stored w2 = stored w ++ [a; b]).
  { rewrite Hst2, Hst1, <- app_assoc. reflexivity. }
  split; [exact Hst |].
  rewrite getEventCount_reads, Hst, length_app. simpl.
  f_equal. f_equal. lia.
Qed.

Lemma two_events_in_call_order_witness :
  exists w1 w2,
    addEvent Samples.login boot = (Return true, w1)
    /\ addEvent (VObj 5 [("eventId", VStr "e2")]) w1 = (Return true, w2)
    /\ stored w2 = stored boot ++ [Samples.login; VObj 5 [("eventId", VStr "e2")]]
    /\ getEventCount w2 = (Return (2 + length (stored boot)), w2).
Proof.
  apply two_events_in_call_order; try reflexivity. exact allocated_boot.
Defined.

(** X8: [clear] empties the store in every state: afterwards the count is 0,
    [getAllEvents] gives an empty array, [hasEvent] is [false] for every
    id, and an event with an [eventId], also one that was stored before, is
    stored again: [addEvent] returns [true] for it, or throws a [TypeError]
    after storing it when its [eventId] has no string. *)
Theorem clear_resets (w : World) :
  exists w',
    clear w = (Return tt, w')
    /\ allocated w'
    /\ getEventCount w' = (Return 0, w')
    /\ (exists copy w'', getAllEvents w' = (Return copy, w'')
                         /\ array_read copy w'' = (Return [], w''))
    /\ (forall eventId, hasEvent eventId w' = (Return false, w'))
    /\ (forall event,
           truthy (get event "eventId") = true ->
           exists w'',
             addEvent event w'
             = (if ToString_throws (get event "eventId") then Throw not_primitive
                else Return true, w'')
             /\ stored w'' = [event]).
Proof.
  assert (Hst : stored (snd (clear w)) = []).
  { unfold stored. cbn. rewrite lookup_app_r, Nat.sub_diag by lia. reflexivity. }
  assert (Hal : allocated (snd (clear w))).
  { unfold allocated. cbn. rewrite length_app. simpl. lia. }
  exists (snd (clear w)). split; [reflexivity |]. split; [exact Hal |].
  split; [rewrite getEventCount_reads, Hst; reflexivity |].
  split.
  { rewrite getAllEvents_copies, Hst. eexists _, _. split; [reflexivity |].
    unfold array_read, gets. cbn [arrays with_arrays].
    rewrite lookup_app_r, Nat.sub_diag by lia. reflexivity. }
  split; [intros eventId; reflexivity |].
  intros event Hid. destruct (get_truthy _ _ Hid) as [Ht _].
  destruct (addEvent_accepts event (snd (clear w)) Hal) as (w'' & Hadd & Hs & _).
  { rewrite Ht, Hid. reflexivity. }
  exists w''. split; [exact Hadd |]. rewrite Hs, Hst. reflexivity.
Qed.

Lemma clear_resets_witness :
  exists w'',
    addEvent Samples.login (snd (clear (snd (addEvent Samples.login boot))))
    = (Return true, w'')
    /\ stored w'' = [Samples.login].
Proof.
  destruct (clear_resets (snd (addEvent Samples.login boot)))
    as (w' & Hc & _ & _ & _ & _ & Hadd).
  rewrite Hc. simpl. apply (Hadd Samples.login). reflexivity.
Defined.

Lemma ids_truthy_step (w w' : World) :
  step w w' -> allocated w ->
  Forall (fun v => truthy v = true) (processedEventIds w) ->
  Forall (fun v => truthy v = true) (processedEventIds w').
Proof.
  intros Hs Ha Hf. destruct Hs; try exact Hf.
  - destruct (addEvent_guard event w Ha) as (w' & Hadd & _ & _ & _ & _ & Hids).
    rewrite Hadd. simpl. rewrite Hids. apply Forall_app. split; [exact Hf |].
    destruct (negb (truthy event) || negb (truthy (get event "eventId"))
              || set_has (processedEventIds w) (get event "eventId")) eqn:Hg;
      [constructor |].
    apply orb_false_iff in Hg. destruct Hg as [Hg _].
    apply orb_false_iff in Hg. destruct Hg as [_ Hid].
    apply negb_false_iff in Hid. constructor; [exact Hid | constructor].
  - constructor.
Qed.

Lemma ids_truthy_reachable (w : World) :
  reachable w -> Forall (fun v => truthy v = true) (processedEventIds w).
Proof.
  induction 1 as [| w w' Hr IH Hs]; [constructor |].
  exact (ids_truthy_step _ _ Hs (reachable_allocated _ Hr) IH).
Qed.

Lemma set_has_map (entries : list value) (id : value) :
  set_has (map (fun e => get e "eventId") entries) id = true
  <-> exists e, In e entries /\ sameValueZero id (get e "eventId") = true.
Proof.
  unfold set_has. rewrite existsb_exists. split.
  - intros (v & Hin & Hv). apply in_map_iff in Hin. destruct Hin as (e & <- & He).
    exists e. split; assumption.
  - intros (e & He & Hv). exists (get e "eventId").
    split; [apply in_map_iff; exists e; split; [reflexivity | exact He] | exact Hv].
Qed.

(** X9: in every state reachable from the empty store, [hasEvent] answers
    [true] exactly for the ids of the stored events, it changes nothing, and
    [getEventCount] is the number of ids in the set. *)
Theorem hasEvent_tells_what_is_stored (w : World) :
  reachable w ->
  (forall id,
      hasEvent id w = (Return true, w)
      <-> exists e, In e (stored w) /\ sameValueZero id (get e "eventId") = true)
  /\ getEventCount w = (Return (length (processedEventIds w)), w).
Proof.
  intros Hr. destruct (inv_reachable w Hr) as (_ & Hm & _). split.
  - intros id. rewrite <- set_has_map, Hm. unfold hasEvent, gets. split.
    + intros H. injection H as H. exact H.
    + intros ->. reflexivity.
  - rewrite getEventCount_reads, <- Hm, length_map. reflexivity.
Qed.

Lemma hasEvent_tells_what_is_stored_witness :
  hasEvent (VStr "e1") (snd (addEvent Samples.login boot))
  = (Return true, snd (addEvent Samples.login boot)).
Proof.
  apply (hasEvent_tells_what_is_stored (snd (addEvent Samples.login boot))).
  - apply reachable_step with (w := boot); [apply reachable_boot | apply step_addEvent].
  - exists Samples.login. split; [left; reflexivity | reflexivity].
Defined.

Lemma stored_events_have_ids_aux (w : World) :
  reachable w ->
  forall e, In e (stored w) ->
            is_mapping e = true /\ truthy (get e "eventId") = true.
Proof.
  intros Hr e He.
  destruct (inv_reachable w Hr) as (_ & Hm & _).
  pose proof (ids_truthy_reachable w Hr) as Hf.
  rewrite <- Hm in Hf. rewrite Forall_forall in Hf.
  assert (Ht : truthy (get e "eventId") = true).
  { apply Hf. apply list_elem_of_In.
    apply (in_map (fun e => get e "eventId")), He. }
  split; [| exact Ht].
  destruct e; try discriminate Ht. reflexivity.
Qed.

(** X10: in every state reachable from the empty store, every stored entry
    is an object with a truthy [eventId]: nothing without an id, and no
    [null], is ever held. *)
Theorem stored_events_have_ids (w : World) :
  reachable w ->
  forall e, In e (stored w) ->
            is_mapping e = true /\ truthy (get e "eventId") = true.
Proof. exact (stored_events_have_ids_aux w). Qed.

Lemma stored_events_have_ids_witness :
  is_mapping Samples.login = true /\ truthy (get Samples.login "eventId") = true.
Proof.
  apply (stored_events_have_ids
           (snd (addEvent Samples.anonymous (snd (addEvent Samples.login boot))))).
  - apply reachable_step with (w := snd (addEvent Samples.login boot));
      [| apply step_addEvent].
    apply reachable_step with (w := boot); [apply reachable_boot | apply step_addEvent].
  - left. reflexivity.
Defined.

(** X11: the array returned by [getAllEvents] is a snapshot: a later
    [addEvent] or [clear] on the store does not change it. *)
Theorem returned_array_is_a_snapshot (w : World) :
  allocated w ->
  exists copy w1,
    getAllEvents w = (Return copy, w1)
    /\ (forall event,
           fst (array_read copy (snd (addEvent event w1))) = Return (stored w))
    /\ fst (array_read copy (snd (clear w1))) = Return (stored w).
Proof.
  intros Ha. unfold allocated in Ha.
  exists (length (arrays w)), (with_arrays (arrays w ++ [stored w]) w).
  split; [apply getAllEvents_copies |].
  set (w1 := with_arrays (arrays w ++ [stored w]) w).
  assert (Hcopy : arrays w1 !! length (arrays w) = Some (stored w)).
  { unfold w1. cbn [arrays with_arrays].
    rewrite lookup_app_r, Nat.sub_diag by lia. reflexivity. }
  assert (Ha1 : allocated w1).
  { unfold allocated, w1. cbn. rewrite length_app. simpl. lia. }
  split.
  - intros event.
    destruct (addEvent_guard event w1 Ha1) as (w2 & Hadd & _ & _ & Ho & _).
    rewrite Hadd. unfold array_read, gets. cbn [fst snd].
    rewrite Ho by (unfold w1; simpl; lia). rewrite Hcopy. reflexivity.
  - assert (Hc : arrays (snd (clear w1)) = arrays w1 ++ [[]]) by reflexivity.
    unfold array_read, gets. cbn [fst snd]. rewrite Hc.
    rewrite lookup_app_l by (unfold w1; cbn; rewrite length_app; simpl; lia).
    rewrite Hcopy. reflexivity.
Qed.

Lemma returned_array_is_a_snapshot_witness :
  exists copy w1,
    getAllEvents (snd (addEvent Samples.login boot)) = (Return copy, w1)
    /\ fst (array_read copy (snd (clear w1))) = Return [Samples.login].
Proof.
  destruct (returned_array_is_a_snapshot (snd (addEvent Samples.login boot)))
    as (copy & w1 & Hg & _ & Hc).
  { unfold allocated. simpl. lia. }
  exists copy, w1. split; [exact Hg | exact Hc].
Defined.

End EventStoreMore.

(* ===================================================================== *)
(** * Further properties of the consumer *)
(* ===================================================================== *)

Module KafkaConsumerMore.
Import KafkaConsumer KafkaConsumerProps EventStoreProps.

Lemma same_store_view (w w' : World) : same_store w w' <-> store_view w' = store_view w.
Proof.
  unfold same_store, store_view. split.
  - intros (-> & -> & ->). reflexivity.
  - intros H. injection H as -> -> ->. repeat split.
Qed.

Lemma addEvent_store_view (event : value) (w0 w : World) :
  store_view w0 = store_view w ->
  fst (EventStore.addEvent event w0) = fst (EventStore.addEvent event w)
  /\ store_view (snd (EventStore.addEvent event w0))
     = store_view (snd (EventStore.addEvent event w)).
Proof.
  unfold store_view. destruct w0, w. cbn [arrays events processedEventIds].
  intros H. injection H as -> -> ->.
  unfold EventStore.addEvent.
  destruct (negb (truthy event) || negb (truthy (get event "eventId")));
    [split; reflexivity |].
  cbv [bind gets interpolate]. cbn [processedEventIds].
  destruct (set_has _ (get event "eventId")),
           (ToString_throws (get event "eventId")); split; reflexivity.
Qed.

Lemma addEvent_result (event : value) (w : World) :
  fst (EventStore.addEvent event w)
  = if ToString_throws (get event "eventId") then Throw not_primitive
    else Return (negb (negb (truthy event) || negb (truthy (get event "eventId"))
                       || set_has (processedEventIds w) (get event "eventId"))).
Proof.
  unfold EventStore.addEvent.
  destruct (negb (truthy event) || negb (truthy (get event "eventId"))) eqn:Hg.
  - rewrite (no_id_has_a_string event Hg). reflexivity.
  - cbv [bind gets interpolate].
    destruct (set_has (processedEventIds w) (get event "eventId")),
             (ToString_throws (get event "eventId")); reflexivity.
Qed.

Lemma inv_store_view (w w' : World) : store_view w' = store_view w -> inv w -> inv w'.
Proof.
  unfold store_view. intros H. injection H as Ha He Hi.
  unfold inv, allocated, stored. rewrite Ha, He, Hi. tauto.
Qed.

Lemma addEvent_accept_log (event : value) (w : World) :
  negb (truthy event) || negb (truthy (get event "eventId"))
  || set_has (processedEventIds w) (get event "eventId") = false ->
  ToString_throws (get event "eventId") = false ->
  logger (snd (EventStore.addEvent event w))
  = logger w ++ [mkLog info "Event stored successfully: ${event.eventId}"
                       [("event.eventId", get event "eventId")]].
Proof.
  intros H Hp. apply orb_false_iff in H. destruct H as [Hg Hs].
  unfold EventStore.addEvent. rewrite Hg. unfold bind at 1, gets at 1. rewrite Hs.
  unfold interpolate. rewrite Hp. reflexivity.
Qed.

Section Consumer.
Variable JSON_parse : string -> nat -> option (value * nat).
Variable toISOString : nat -> string.

Lemma processEvent_complete (event : value) (w : World) :
  nullish event = false ->
  lacks_field event = false ->
  exists w0,
    store_view w0 = store_view w
    /\ logger w0 = logger w
    /\ stdout w0 = stdout w ++ [mkConsole "EVENT_CONSUMED" (get event "eventId")
                                          (get event "userId") (get event "eventType")
                                          (toISOString (dates w))]
    /\ processEvent toISOString event w
       = if ToString_throws (get event "eventId")
         then (Return false,
               snd (log error "Error in processEvent"
                        [("eventId", get event "eventId");
                         ("error", VStr (JS.message not_primitive))]
                        (snd (EventStore.addEvent event w0))))
         else EventStore.addEvent event w0.
Proof.
  intros Hn Hl. unfold lacks_field in Hl.
  apply orb_false_iff in Hl. destruct Hl as [Hl He].
  apply orb_false_iff in Hl. destruct Hl as [Hi Hu].
  unfold processEvent, lazy_or, not_member.
  rewrite !member_defined by exact Hn. cbv [try_catch bind ret].
  rewrite Hi, Hu, He.
  unfold new_Date_toISOString, console_log. cbv [bind gets modify ret].
  exists (with_stdout
            (stdout (with_dates (S (dates w)) w)
               ++ [mkConsole "EVENT_CONSUMED" (get event "eventId")
                             (get event "userId") (get event "eventType")
                             (toISOString (dates w))])
            (with_dates (S (dates w)) w)).
  split; [reflexivity |]. split; [reflexivity |]. split; [reflexivity |].
  match goal with
  | |- _ = (if _ then _ else EventStore.addEvent event ?w0) =>
      pose proof (addEvent_result event w0) as Hres;
      destruct (EventStore.addEvent event w0) as [o1 w1]
  end.
  cbn [fst] in Hres. subst o1.
  destruct (ToString_throws (get event "eventId")); reflexivity.
Qed.

Lemma processEvent_true_exactly_when_new_aux (event : value) (w : World) :
  nullish event = false ->
  fst (processEvent toISOString event w)
  = Return (negb (lacks_field event)
            && negb (set_has (processedEventIds w) (get event "eventId"))
            && negb (ToString_throws (get event "eventId")))
  /\ store_view (snd (processEvent toISOString event w))
     = store_view (if lacks_field event then w
                   else snd (EventStore.addEvent event w)).
Proof.
  intros Hn. destruct (lacks_field event) eqn:Hl.
  - destruct (processEvent_invalid toISOString event w Hn Hl) as (w' & -> & Hs & _).
    split; [reflexivity | apply same_store_view, Hs].
  - destruct (processEvent_complete event w Hn Hl) as (w0 & Hv & _ & _ & ->).
    destruct (addEvent_store_view event w0 w Hv) as [Hf Hsv].
    unfold lacks_field in Hl.
    apply orb_false_iff in Hl. destruct Hl as [Hl _].
    apply orb_false_iff in Hl. destruct Hl as [Hi _].
    apply negb_false_iff in Hi.
    destruct (get_truthy _ _ Hi) as [Ht _].
    pose proof (addEvent_result event w) as Hres.
    rewrite Ht, Hi in Hres. cbn [negb orb] in Hres.
    destruct (ToString_throws (get event "eventId")).
    + split; [cbn [fst negb andb]; rewrite andb_false_r; reflexivity |].
      transitivity (store_view (snd (EventStore.addEvent event w0)));
        [reflexivity | exact Hsv].
    + split; [| exact Hsv]. rewrite Hf, Hres. cbn [negb andb].
      rewrite andb_true_r. reflexivity.
Qed.

(** X12: for an event that is not [null], [processEvent] always returns,
    and returns [true] exactly when the event has its three fields, its
    [eventId] is not in the store and the [eventId] can be converted to a
    string (when it cannot, the [TypeError] of [addEvent] is caught and
    [false] is returned, the event being stored all the same); what it
    does to the store is what [addEvent] does for an event with its three
    fields, and nothing otherwise. *)
Theorem processEvent_true_exactly_when_new (event : value) (w : World) :
  nullish event = false ->
  fst (processEvent toISOString event w)
  = Return (negb (lacks_field event)
            && negb (set_has (processedEventIds w) (get event "eventId"))
            && negb (ToString_throws (get event "eventId")))
  /\ store_view (snd (processEvent toISOString event w))
     = store_view (if lacks_field event then w
                   else snd (EventStore.addEvent event w)).
Proof. exact (processEvent_true_exactly_when_new_aux event w). Qed.

Lemma handleMessage_changes_store_by_addEvent_aux
        (topic : string) (partition : value) (message : KafkaMessage) (w : World) :
  store_view (snd (handleMessage JSON_parse toISOString topic partition message w))
  = store_view (consumed JSON_parse message w).
Proof.
  unfold consumed, handleMessage, value_toString, parse.
  destruct (value_buffer message) as [text |]; [| reflexivity].
  cbv [try_catch bind ret gets].
  destruct (JSON_parse text (objects w)) as [[event n'] |]; [| reflexivity].
  cbv [modify].
  destruct (nullish event) eqn:Hn.
  - unfold member. rewrite Hn. reflexivity.
  - rewrite !member_defined by exact Hn. cbv [ret log modify].
    match goal with
    | |- context [processEvent toISOString event ?w0] =>
        pose proof (proj2 (processEvent_true_exactly_when_new_aux event w0 Hn)) as Hsv;
        destruct (processEvent toISOString event w0) as [[[] | e] w1]
    end; cbn [snd] in Hsv;
      (transitivity (store_view w1); [reflexivity |]); rewrite Hsv; cbn [orb];
      (destruct (lacks_field event);
       [reflexivity | apply addEvent_store_view; reflexivity]).
Qed.

(** X13: what [handleMessage] does to the Event Store is [addEvent] of the
    deserialized event when the message carries an event with its three
    fields, and nothing for every other message (a tombstone, a text that
    is not JSON, [null], an event without one of the fields). *)
Theorem handleMessage_changes_store_by_addEvent
        (topic : string) (partition : value) (message : KafkaMessage) (w : World) :
  store_view (snd (handleMessage JSON_parse toISOString topic partition message w))
  = store_view (consumed JSON_parse message w).
Proof. exact (handleMessage_changes_store_by_addEvent_aux topic partition message w). Qed.

Lemma handleMessage_stores_new_event_aux
        (topic : string) (partition : value) (message : KafkaMessage) (w : World)
        (text : string) (event : value) (n' : nat) :
  value_buffer message = Some text ->
  JSON_parse text (objects w) = Some (event, n') ->
  nullish event = false ->
  lacks_field event = false ->
  set_has (processedEventIds w) (get event "eventId") = false ->
  ToString_throws (get event "eventId") = false ->
  allocated w ->
  exists w',
    handleMessage JSON_parse toISOString topic partition message w = (Return tt, w')
    /\ stored w' = stored w ++ [event]
    /\ processedEventIds w' = processedEventIds w ++ [get event "eventId"]
    /\ stdout w' = stdout w ++ [mkConsole "EVENT_CONSUMED" (get event "eventId")
                                          (get event "userId") (get event "eventType")
                                          (toISOString (dates w))]
    /\ logger w'
       = logger w
         ++ [mkLog info "Message received from Kafka"
                   [("topic", VStr topic); ("partition", partition);
                    ("offset", VStr (msg_offset message));
                    ("eventId", get event "eventId"); ("userId", get event "userId");
                    ("eventType", get event "eventType")];
             mkLog info "Event stored successfully: ${event.eventId}"
                   [("event.eventId", get event "eventId")];
             mkLog info "Event processed successfully"
                   [("eventId", get event "eventId"); ("userId", get event "userId");
                    ("eventType", get event "eventType")]].
Proof.
  intros Hv Hp Hn Hl Hs Hpr Ha.
  pose proof Hl as Hl'. unfold lacks_field in Hl'.
  apply orb_false_iff in Hl'. destruct Hl' as [Hl' _].
  apply orb_false_iff in Hl'. destruct Hl' as [Hi _].
  apply negb_false_iff in Hi. destruct (get_truthy _ _ Hi) as [Ht _].
  unfold handleMessage, value_toString, parse.
  rewrite Hv. cbv [try_catch bind ret gets]. rewrite Hp.
  cbv [modify]. rewrite !member_defined by exact Hn.
  cbv [ret log modify].
  match goal with
  | |- context [processEvent toISOString event ?w0] =>
      destruct (processEvent_complete event w0 Hn Hl) as (w1 & Hsv & Hlg & Hout & ->)
  end.
  rewrite Hpr.
  apply same_store_view in Hsv. pose proof (same_store_stored _ _ Hsv) as Hst1.
  destruct Hsv as (Harr1 & Hev1 & Hids1).
  cbn in Hst1, Harr1, Hev1, Hids1, Hout, Hlg.
  assert (Hg : negb (truthy event) || negb (truthy (get event "eventId"))
               || set_has (processedEventIds w1) (get event "eventId") = false).
  { rewrite Ht, Hi, Hids1. exact Hs. }
  destruct (addEvent_accepts event w1) as (w2 & Hadd & Hst & Hids & _);
    [unfold allocated; rewrite Harr1, Hev1; exact Ha | exact Hg |].
  pose proof (addEvent_stdout event w1) as Hout2.
  pose proof (addEvent_accept_log event w1 Hg Hpr) as Hlg2.
  rewrite Hpr in Hadd.
  rewrite Hadd in Hout2, Hlg2 |- *. cbn [snd] in Hout2, Hlg2.
  eexists. split; [reflexivity |].
  split; [transitivity (stored w2); [reflexivity | rewrite Hst, Hst1; reflexivity] |].
  split; [transitivity (processedEventIds w2);
          [reflexivity | rewrite Hids, Hids1; reflexivity] |].
  split; [transitivity (stdout w2); [reflexivity | rewrite Hout2, Hout; reflexivity] |].
  transitivity (logger w2 ++ [mkLog info "Event processed successfully"
                                    [("eventId", get event "eventId");
                                     ("userId", get event "userId");
                                     ("eventType", get event "eventType")]]);
    [reflexivity |].
  rewrite Hlg2, Hlg, <- !app_assoc. reflexivity.
Qed.

(** X14: handling a message that carries an event with its three fields and
    an [eventId] that is not yet in the store and can be converted to a
    string appends the event to the stored sequence, writes one
    EVENT_CONSUMED line to stdout and logs, in this order, the receipt, the
    storing and the processing of the event. *)
Theorem handleMessage_stores_new_event
        (topic : string) (partition : value) (message : KafkaMessage) (w : World)
        (text : string) (event : value) (n' : nat) :
  value_buffer message = Some text ->
  JSON_parse text (objects w) = Some (event, n') ->
  nullish event = false ->
  lacks_field event = false ->
  set_has (processedEventIds w) (get event "eventId") = false ->
  ToString_throws (get event "eventId") = false ->
  allocated w ->
  exists w',
    handleMessage JSON_parse toISOString topic partition message w = (Return tt, w')
    /\ stored w' = stored w ++ [event]
    /\ processedEventIds w' = processedEventIds w ++ [get event "eventId"]
    /\ stdout w' = stdout w ++ [mkConsole "EVENT_CONSUMED" (get event "eventId")
                                          (get event "userId") (get event "eventType")
                                          (toISOString (dates w))]
    /\ logger w'
       = logger w
         ++ [mkLog info "Message received from Kafka"
                   [("topic", VStr topic); ("partition", partition);
                    ("offset", VStr (msg_offset message));
                    ("eventId", get event "eventId"); ("userId", get event "userId");
                    ("eventType", get event "eventType")];
             mkLog info "Event stored successfully: ${event.eventId}"
                   [("event.eventId", get event "eventId")];
             mkLog info "Event processed successfully"
                   [("eventId", get event "eventId"); ("userId", get event "userId");
                    ("eventType", get event "eventType")]].
Proof.
  exact (handleMessage_stores_new_event_aux topic partition message w text event n').
Qed.

Lemma consumed_grows (message : KafkaMessage) (w : World) :
  inv w ->
  inv (consumed JSON_parse message w)
  /\ exists suffix,
      stored (consumed JSON_parse message w) = stored w ++ suffix
      /\ length suffix <= 1.
Proof.
  intros Hi.
  assert (Hsame : inv w /\ exists suffix, stored w = stored w ++ suffix
                                          /\ length suffix <= 1).
  { split; [exact Hi |]. exists []. rewrite app_nil_r. split; [reflexivity | simpl; lia]. }
  unfold consumed.
  destruct (value_buffer message) as [text |]; [| exact Hsame].
  destruct (JSON_parse text (objects w)) as [[event n'] |]; [| exact Hsame].
  destruct (nullish event || lacks_field event); [exact Hsame |].
  split; [apply inv_addEvent, Hi |].
  destruct Hi as (Ha & _).
  destruct (EventStoreMore.addEvent_guard event w Ha) as (w' & -> & _ & _ & _ & Hst & _).
  eexists. split; [exact Hst |].
  destruct (_ || _); simpl; lia.
Qed.

(** X15: a run of the consumer over any sequence of deliveries keeps the id
    set and the stored sequence in lockstep, never removes or reorders what
    was stored, and stores at most one event per delivery. *)
Theorem eachMessage_keeps_lockstep
        (deliveries : list (string * value * KafkaMessage)) (w : World) :
  inv w ->
  exists w' suffix,
    eachMessage JSON_parse toISOString deliveries w = (Return tt, w')
    /\ inv w'
    /\ lockstep w'
    /\ stored w' = stored w ++ suffix
    /\ length suffix <= length deliveries.
Proof.
  revert w. induction deliveries as [| [[topic partition] message] rest IH]; intros w Hi.
  - exists w, []. rewrite app_nil_r.
    split; [reflexivity |]. split; [exact Hi |]. split; [apply inv_lockstep, Hi |].
    split; [reflexivity | simpl; lia].
  - pose proof (handleMessage_changes_store_by_addEvent_aux topic partition message w) as Hsv.
    destruct (handleMessage_returns JSON_parse toISOString topic partition message w)
      as (w1 & H1).
    rewrite H1 in Hsv. cbn [snd] in Hsv.
    destruct (consumed_grows message w Hi) as (Hic & s1 & Hs1 & Hl1).
    pose proof (inv_store_view _ _ Hsv Hic) as Hi1.
    apply same_store_view in Hsv. apply same_store_stored in Hsv.
    destruct (IH w1 Hi1) as (w' & s2 & Hrun & Hi' & Hlock & Hst & Hlen).
    exists w', (s1 ++ s2). simpl. unfold bind. rewrite H1.
    split; [exact Hrun |]. split; [exact Hi' |]. split; [exact Hlock |].
    split; [rewrite Hst, Hsv, Hs1, <- app_assoc; reflexivity |].
    rewrite length_app. simpl. lia.
Qed.

(** X16: after a message that carries an event with its three fields has
    been handled, the [eventId] of the event is in the store, whether the
    event was new or a duplicate. *)
Theorem handled_event_is_known
        (topic : string) (partition : value) (message : KafkaMessage) (w : World)
        (text : string) (event : value) (n' : nat) :
  value_buffer message = Some text ->
  JSON_parse text (objects w) = Some (event, n') ->
  nullish event = false ->
  lacks_field event = false ->
  allocated w ->
  fst (EventStore.hasEvent (get event "eventId")
         (snd (handleMessage JSON_parse toISOString topic partition message w)))
  = Return true.
Proof.
  intros Hv Hp Hn Hl Ha.
  pose proof (handleMessage_changes_store_by_addEvent_aux topic partition message w) as Hsv.
  unfold consumed in Hsv. rewrite Hv, Hp, Hn, Hl in Hsv. cbn [orb] in Hsv.
  apply same_store_view in Hsv. destruct Hsv as (_ & _ & Hids).
  unfold EventStore.hasEvent, gets. cbn [fst]. rewrite Hids.
  destruct (EventStoreMore.addEvent_guard event w Ha)
    as (w' & Hadd & _ & _ & _ & _ & Hids').
  rewrite Hadd. cbn [snd]. rewrite Hids'. f_equal.
  unfold lacks_field in Hl.
  apply orb_false_iff in Hl. destruct Hl as [Hl _].
  apply orb_false_iff in Hl. destruct Hl as [Hi _].
  apply negb_false_iff in Hi. destruct (get_truthy _ _ Hi) as [Ht _].
  rewrite Ht, Hi. cbn [negb orb].
  destruct (set_has (processedEventIds w) (get event "eventId")) eqn:Hs.
  - rewrite app_nil_r. exact Hs.
  - apply set_has_last.
Qed.



End Consumer.

Lemma processEvent_true_exactly_when_new_witness :
  fst (processEvent Samples.clock Samples.login boot) = Return true
  /\ fst (processEvent Samples.clock Samples.login
            (snd (processEvent Samples.clock Samples.login boot))) = Return false.
Proof.
  split.
  - apply (processEvent_true_exactly_when_new Samples.clock Samples.login boot).
    reflexivity.
  - apply (processEvent_true_exactly_when_new Samples.clock Samples.login).
    reflexivity.
Defined.

Lemma handleMessage_stores_new_event_witness :
  exists w',
    handleMessage Samples.parse_table Samples.clock Samples.topic (VNum (Zero false))
                  (mkKafkaMessage (Some "login e1") "42") boot
    = (Return tt, w')
    /\ stored w' = [Samples.login]
    /\ length (stdout w') = 1.
Proof.
  destruct (handleMessage_stores_new_event Samples.parse_table Samples.clock
              Samples.topic (VNum (Zero false))
              (mkKafkaMessage (Some "login e1") "42") boot
              "login e1" Samples.login 1)
    as (w' & Hh & Hst & _ & Hout & _);
    try reflexivity; [exact allocated_boot |].
  exists w'. split; [exact Hh |]. split; [exact Hst |]. rewrite Hout. reflexivity.
Defined.

Lemma eachMessage_keeps_lockstep_witness :
  exists w' suffix,
    eachMessage Samples.parse_table Samples.clock
                [(Samples.topic, VNum (Zero false), mkKafkaMessage (Some "login e1") "0");
                 (Samples.topic, VNum (Zero false), mkKafkaMessage (Some "not json") "1");
                 (Samples.topic, VNum (Zero false), mkKafkaMessage (Some "login e1") "2")]
                boot
    = (Return tt, w')
    /\ inv w'
    /\ lockstep w'
    /\ stored w' = stored boot ++ suffix
    /\ length suffix <= 3.
Proof. apply eachMessage_keeps_lockstep. exact inv_boot. Defined.

Lemma handled_event_is_known_witness :
  fst (EventStore.hasEvent (VStr "e1")
         (snd (handleMessage Samples.parse_table Samples.clock Samples.topic
                 (VNum (Zero false)) (mkKafkaMessage (Some "login e1") "42") boot)))
  = Return true.
Proof.
  apply (handled_event_is_known Samples.parse_table Samples.clock Samples.topic
           (VNum (Zero false)) (mkKafkaMessage (Some "login e1") "42") boot
           "login e1" Samples.login 1); try reflexivity.
  exact allocated_boot.
Defined.


End KafkaConsumerMore.

(* ===================================================================== *)
(** * Further properties of the producer *)
(* ===================================================================== *)

Module KafkaProducerMore.
Import KafkaProducer.

Section Producer.
Variable topic : string.
Variable JSON_stringify : value -> string.
Variable client_send : ProducerRecord -> outcome (list RecordMetadata).

Lemma publishEvent_connected (event : value) (w : World) :
  isConnected w = true ->
  nullish event = false ->
  publishEvent topic JSON_stringify client_send event w
  = match client_send (record_of topic JSON_stringify event) with
    | Return (r :: rest) =>
        (Return (r :: rest),
         with_logger
           (logger w ++ [mkLog info "Event published to Kafka"
                               [("eventId", get event "eventId"); ("topic", VStr topic);
                                ("partition", partition r); ("offset", offset r)]])
           (with_sent (sent w ++ [record_of topic JSON_stringify event]) w))
    | Return [] =>
        (Throw (TypeError "Cannot read properties of undefined (reading 'partition')"),
         with_logger
           (logger w ++ [mkLog error "Failed to publish event to Kafka"
                               [("eventId", get event "eventId");
                                ("error", VStr "Cannot read properties of undefined (reading 'partition')")]])
           (with_sent (sent w ++ [record_of topic JSON_stringify event]) w))
    | Throw e =>
        (Throw e,
         with_logger
           (logger w ++ [mkLog error "Failed to publish event to Kafka"
                               [("eventId", get event "eventId");
                                ("error", VStr (JS.message e))]])
           (with_sent (sent w ++ [record_of topic JSON_stringify event]) w))
    end.
Proof.
  intros Hc Hn.
  unfold publishEvent, producer_send, member, lift, first_metadata, record_of.
  rewrite Hn. cbv [bind gets]. rewrite Hc. cbv [negb try_catch bind ret modify].
  cbn [sent with_sent].
  destruct (client_send _) as [[| r rest] | e]; reflexivity.
Qed.

(** X18: on a connected producer, when the broker acknowledges the send,
    [publishEvent] returns the metadata it was given and has handed the
    broker client exactly one record: the configured topic and one message
    whose key is the event's [userId], whose value is the serialized event
    and whose headers are the event's [eventType] and [timestamp]; the
    Event Store and the connection flag are untouched. *)
Theorem publishEvent_sends_one_keyed_record
        (event : value) (w : World) (r : RecordMetadata) (rest : list RecordMetadata) :
  isConnected w = true ->
  nullish event = false ->
  client_send (record_of topic JSON_stringify event) = Return (r :: rest) ->
  exists w',
    publishEvent topic JSON_stringify client_send event w = (Return (r :: rest), w')
    /\ sent w' = sent w ++ [mkRecord topic
                              [mkMessage (get event "userId") (JSON_stringify event)
                                         [("eventType", get event "eventType");
                                          ("timestamp", get event "timestamp")]]]
    /\ store_view w' = store_view w
    /\ isConnected w' = true.
Proof.
  intros Hc Hn Hs. rewrite (publishEvent_connected event w Hc Hn), Hs.
  eexists. split; [reflexivity |]. split; [reflexivity |]. split; [reflexivity | exact Hc].
Qed.

(** X19: a send that resolves without metadata makes [publishEvent] throw a
    [TypeError], after the record was handed to the broker client; a send
    that the broker rejects is rethrown as it is.  Either way one line is
    logged at level error. *)
Theorem publishEvent_failures (event : value) (w : World) :
  isConnected w = true ->
  nullish event = false ->
  (client_send (record_of topic JSON_stringify event) = Return [] ->
   exists w',
     publishEvent topic JSON_stringify client_send event w
     = (Throw (TypeError "Cannot read properties of undefined (reading 'partition')"), w')
     /\ sent w' = sent w ++ [record_of topic JSON_stringify event]
     /\ length (logger w') = S (length (logger w)))
  /\ (forall e,
         client_send (record_of topic JSON_stringify event) = Throw e ->
         exists w',
           publishEvent topic JSON_stringify client_send event w = (Throw e, w')
           /\ sent w' = sent w ++ [record_of topic JSON_stringify event]
           /\ length (logger w') = S (length (logger w))).
Proof.
  intros Hc Hn. rewrite (publishEvent_connected event w Hc Hn). split.
  - intros ->. eexists. split; [reflexivity |]. split; [reflexivity |].
    cbn. rewrite length_app. simpl. lia.
  - intros e ->. eexists. split; [reflexivity |]. split; [reflexivity |].
    cbn. rewrite length_app. simpl. lia.
Qed.

End Producer.

(** X20: the connection flag of the producer follows the broker client: a
    [connect] that succeeds sets it, a [disconnect] that succeeds clears it
    and makes the next [publishEvent] fail at once with nothing sent; a
    [connect] or [disconnect] that fails rethrows the error and leaves the
    flag as it was. *)
Theorem producer_flag_follows_client (w : World) :
  (exists w', connect (Return tt) w = (Return tt, w') /\ isConnected w' = true
              /\ sent w' = sent w)
  /\ (forall topic JSON_stringify client_send event,
         exists w',
           disconnect (Return tt) w = (Return tt, w')
           /\ isConnected w' = false
           /\ publishEvent topic JSON_stringify client_send event w'
              = (Throw (new_Error "Producer is not connected to Kafka"), w'))
  /\ (forall e, exists w', connect (Throw e) w = (Throw e, w')
                           /\ isConnected w' = isConnected w)
  /\ (forall e, exists w', disconnect (Throw e) w = (Throw e, w')
                           /\ isConnected w' = isConnected w).
Proof.
  split; [eexists; repeat split |].
  split.
  { intros. eexists. split; [reflexivity |]. split; [reflexivity |].
    apply EventControllerProps.publishEvent_not_connected. reflexivity. }
  split; intros e; eexists; split; reflexivity.
Qed.

Lemma publishEvent_sends_one_keyed_record_witness :
  exists w',
    publishEvent Samples.topic Samples.wire
                 (fun _ => Return [mkMetadata (VNum (Zero false)) (VStr "123")])
                 Samples.login (with_isConnected true boot)
    = (Return [mkMetadata (VNum (Zero false)) (VStr "123")], w')
    /\ sent w' = [mkRecord Samples.topic
                    [mkMessage (VStr "u1") "(event)"
                               [("eventType", VStr "LOGIN"); ("timestamp", VUndefined)]]].
Proof.
  destruct (publishEvent_sends_one_keyed_record Samples.topic Samples.wire
              (fun _ => Return [mkMetadata (VNum (Zero false)) (VStr "123")])
              Samples.login (with_isConnected true boot)
              (mkMetadata (VNum (Zero false)) (VStr "123")) [])
    as (w' & Hp & Hs & _); try reflexivity.
  exists w'. split; [exact Hp | exact Hs].
Defined.

Lemma publishEvent_failures_witness :
  exists w',
    publishEvent Samples.topic Samples.wire (fun _ => Return [])
                 Samples.login (with_isConnected true boot)
    = (Throw (TypeError "Cannot read properties of undefined (reading 'partition')"), w')
    /\ length (sent w') = 1.
Proof.
  destruct (publishEvent_failures Samples.topic Samples.wire (fun _ => Return [])
              Samples.login (with_isConnected true boot)) as [Hempty _];
    try reflexivity.
  destruct Hempty as (w' & Hp & Hs & _); [reflexivity |].
  exists w'. split; [exact Hp |]. rewrite Hs. reflexivity.
Defined.

End KafkaProducerMore.

(* ===================================================================== *)
(** * Further properties of the controller *)
(* ===================================================================== *)

Module EventControllerMore.
Import EventController EventControllerProps.

Section Controller.
Variable topic : string.
Variable JSON_stringify : value -> string.
Variable client_send : ProducerRecord -> outcome (list RecordMetadata).
Variable toISOString : nat -> string.
Variable uuidv4 : nat -> string.

Lemma truthy_not_nullish (v : value) : truthy v = true -> nullish v = false.
Proof. destruct v; try discriminate; reflexivity. Qed.

(** X21: a request body that does not pass the validator is answered 400
    with the validator's errors, in their order, as [details]; nothing is
    handed to the broker, no UUID is drawn, the clock is not read and the
    Event Store is untouched. *)
Theorem invalid_request_is_refused (req_body : value) (w : World) :
  truthy req_body = true ->
  Validator.valid (Validator.validateEventPayload req_body) = false ->
  exists w',
    generateEvent topic JSON_stringify client_send toISOString uuidv4 req_body w
    = (Return (mkResponse 400
                 (JObj [("error", JStr "Validation failed");
                        ("details",
                         JArr (map JStr (Validator.errors
                                           (Validator.validateEventPayload req_body))))])),
       w')
    /\ sent w' = sent w
    /\ uuids w' = uuids w
    /\ dates w' = dates w
    /\ store_view w' = store_view w.
Proof.
  intros Ht Hv.
  unfold generateEvent, destructure. rewrite (truthy_not_nullish _ Ht).
  unfold new_object. cbv [try_catch bind ret gets modify].
  rewrite candidate_validation by exact Ht. rewrite Hv. cbv [negb].
  eexists. split; [reflexivity | repeat split].
Qed.

(** X22: a valid request on a connected producer whose broker acknowledges
    the send is answered 201 with the UUID drawn for it and the time read
    for it; exactly one record was handed to the broker, for an event that
    carries this [eventId] and [timestamp], the [userId] and [eventType] of
    the request, and as [payload] the payload of the request, or a new
    empty object when the request has none; one UUID was drawn. *)
Theorem valid_request_is_published
        (req_body : value) (w : World) (r : RecordMetadata) (rest : list RecordMetadata) :
  valid_request req_body ->
  isConnected w = true ->
  (forall record, client_send record = Return (r :: rest)) ->
  exists w' event,
    generateEvent topic JSON_stringify client_send toISOString uuidv4 req_body w
    = (Return (mkResponse 201
                 (JObj [("message", JStr "Event published successfully");
                        ("eventId", JStr (uuidv4 (uuids w)));
                        ("timestamp", JStr (toISOString (dates w)))])), w')
    /\ sent w' = sent w ++ [record_of topic JSON_stringify event]
    /\ get event "eventId" = VStr (uuidv4 (uuids w))
    /\ get event "userId" = get req_body "userId"
    /\ get event "eventType" = get req_body "eventType"
    /\ get event "timestamp" = VStr (toISOString (dates w))
    /\ get event "payload" = (if truthy (get req_body "payload")
                              then get req_body "payload"
                              else VObj (S (objects w)) [])
    /\ uuids w' = S (uuids w).
Proof.
  intros Hv Hc Hs.
  destruct (valid_request_truthy _ Hv) as [Ht Hn].
  unfold generateEvent, destructure. rewrite Hn.
  unfold new_object, draw_uuid, new_Date_toISOString.
  cbv [try_catch bind ret gets modify].
  rewrite candidate_validation by exact Ht.
  unfold valid_request in Hv. rewrite Hv. cbv [negb].
  destruct (truthy (get req_body "payload")) eqn:Hp;
    match goal with
    | |- context [KafkaProducer.publishEvent _ _ _ ?ev ?w0] =>
        rewrite (KafkaProducerMore.publishEvent_connected topic JSON_stringify
                   client_send ev w0 Hc eq_refl), Hs;
        exists (snd (log info "Event generated and published"
                         [("eventId", get ev "eventId"); ("userId", get ev "userId");
                          ("eventType", get ev "eventType")]
                         (with_logger
                            (logger w0 ++ [mkLog info "Event published to Kafka"
                                                 [("eventId", get ev "eventId");
                                                  ("topic", VStr topic);
                                                  ("partition", partition r);
                                                  ("offset", offset r)]])
                            (with_sent (sent w0 ++ [record_of topic JSON_stringify ev])
                                       w0)))), ev
    end;
    repeat split.
Qed.

(** X23: [generateEvent] never throws, whatever the request body and the
    state of the producer, for a broker client that resolves or that
    rejects with an [Error] (a value with a string [message], as every
    error of the client is): it always answers, with 201, 400, 500 or
    503. *)
Theorem generateEvent_always_answers (req_body : value) (w : World) :
  exists resp w',
    generateEvent topic JSON_stringify client_send toISOString uuidv4 req_body w
    = (Return resp, w')
    /\ (statusCode resp = 201 \/ statusCode resp = 400
        \/ statusCode resp = 500 \/ statusCode resp = 503).
Proof.
  assert (Hcatch : forall e w0,
             exists resp w',
               (do log error "Error in generateEvent" [("error", VStr (JS.message e))];
                if includes (JS.message e) "not connected"
                then ret service_unavailable else ret internal_server_error) w0
               = (Return resp, w')
               /\ (statusCode resp = 201 \/ statusCode resp = 400
                   \/ statusCode resp = 500 \/ statusCode resp = 503)).
  { intros e w0. cbv [bind log modify].
    destruct (includes (JS.message e) "not connected");
      eexists _, _; (split; [reflexivity |]); simpl; auto. }
  unfold generateEvent, destructure.
  destruct (nullish req_body); [apply Hcatch |].
  unfold new_object, draw_uuid, new_Date_toISOString.
  cbv [try_catch bind ret gets modify].
  destruct (negb (Validator.valid _)).
  - eexists _, _. split; [reflexivity |]. simpl. auto.
  - destruct (truthy (get req_body "payload"));
      match goal with
      | |- context [KafkaProducer.publishEvent _ _ _ ?ev ?w0] =>
          destruct (KafkaProducer.publishEvent topic JSON_stringify client_send ev w0)
            as [[res | e] w1]
      end;
      try apply Hcatch;
      (eexists _, _; split; [reflexivity |]; simpl; auto).
Qed.

Lemma candidate_of_primitive (req_body : value) (n : nat) :
  nullish req_body = false ->
  truthy req_body = false ->
  Validator.valid
    (Validator.validateEventPayload
       (VObj n [("userId", get req_body "userId");
                ("eventType", get req_body "eventType");
                ("payload", get req_body "payload")])) = false.
Proof.
  destruct req_body; try discriminate; reflexivity.
Qed.

(** X24: nothing is handed to the broker for a request body that the
    validator rejects, or while the producer is not connected, whatever
    the body ([null] and other falsy bodies included) and whatever the
    broker would do. *)
Theorem nothing_sent_unless_valid_and_connected (req_body : value) (w : World) :
  Validator.valid (Validator.validateEventPayload req_body) = false
  \/ isConnected w = false ->
  sent (snd (generateEvent topic JSON_stringify client_send toISOString uuidv4
               req_body w))
  = sent w.
Proof.
  intros H.
  unfold generateEvent, destructure.
  destruct (nullish req_body) eqn:Hn.
  { cbv [try_catch throw bind log modify].
    destruct (includes _ "not connected"); reflexivity. }
  unfold new_object, draw_uuid, new_Date_toISOString.
  cbv [try_catch bind ret gets modify].
  destruct (truthy req_body) eqn:Ht.
  - rewrite candidate_validation by exact Ht.
    destruct (Validator.valid (Validator.validateEventPayload req_body)) eqn:Hv;
      [| reflexivity].
    destruct H as [H | Hc]; [discriminate H |]. cbv [negb].
    destruct (truthy (get req_body "payload"));
      rewrite publishEvent_not_connected by exact Hc;
      cbv [log modify bind];
      destruct (includes _ "not connected"); reflexivity.
  - rewrite (candidate_of_primitive req_body _ Hn Ht). reflexivity.
Qed.

End Controller.

Lemma nothing_sent_unless_valid_and_connected_witness :
  sent (snd (generateEvent Samples.topic Samples.wire
               (fun _ => Return [mkMetadata (VNum (Zero false)) (VStr "123")])
               Samples.clock Samples.uuid Samples.request boot))
  = sent boot
  /\ sent (snd (generateEvent Samples.topic Samples.wire
                  (fun _ => Return [mkMetadata (VNum (Zero false)) (VStr "123")])
                  Samples.clock Samples.uuid VNull (with_isConnected true boot)))
     = sent (with_isConnected true boot).
Proof.
  split; apply nothing_sent_unless_valid_and_connected.
  - right. reflexivity.
  - left. reflexivity.
Defined.

Lemma invalid_request_is_refused_witness :
  exists w',
    generateEvent Samples.topic Samples.wire (Samples.rejecting "unused")
                  Samples.clock Samples.uuid Samples.string_payload boot
    = (Return (mkResponse 400
                 (JObj [("error", JStr "Validation failed");
                        ("details", JArr [JStr "payload must be an object"])])), w')
    /\ sent w' = sent boot
    /\ uuids w' = uuids boot.
Proof.
  destruct (invalid_request_is_refused Samples.topic Samples.wire
              (Samples.rejecting "unused") Samples.clock Samples.uuid
              Samples.string_payload boot) as (w' & Hg & Hs & Hu & _);
    try reflexivity.
  exists w'. split; [exact Hg |]. split; [exact Hs | exact Hu].
Defined.

Lemma valid_request_is_published_witness :
  exists w' event,
    generateEvent Samples.topic Samples.wire
                  (fun _ => Return [mkMetadata (VNum (Zero false)) (VStr "123")])
                  Samples.clock Samples.uuid Samples.request
                  (with_isConnected true boot)
    = (Return (mkResponse 201
                 (JObj [("message", JStr "Event published successfully");
                        ("eventId", JStr "3b241101-e2bb-4255-8caf-4136c566a962");
                        ("timestamp", JStr "2024-01-01T00:00:00.000Z")])), w')
    /\ sent w' = [record_of Samples.topic Samples.wire event]
    /\ get event "payload" = VObj 1 [].
Proof.
  destruct (valid_request_is_published Samples.topic Samples.wire
              (fun _ => Return [mkMetadata (VNum (Zero false)) (VStr "123")])
              Samples.clock Samples.uuid Samples.request (with_isConnected true boot)
              (mkMetadata (VNum (Zero false)) (VStr "123")) [])
    as (w' & event & Hg & Hs & _ & _ & _ & _ & Hp & _); try reflexivity.
  exists w', event. split; [exact Hg |]. split; [exact Hs | exact Hp].
Defined.

(** ** The query *)

Lemma project_defined (event : value) (w : World) :
  nullish event = false ->
  EventQueries.project event w = (Return (public_fields event), w).
Proof.
  intros Hn. unfold EventQueries.project, member. rewrite Hn. reflexivity.
Qed.

Lemma array_map_project (xs : list value) (w : World) :
  Forall (fun e => nullish e = false) xs ->
  EventQueries.array_map EventQueries.project xs w
  = (Return (map public_fields xs), w).
Proof.
  induction 1 as [| x xs Hx _ IH]; [reflexivity |].
  simpl. unfold bind at 1. rewrite (project_defined x w Hx).
  unfold bind at 1. rewrite IH. reflexivity.
Qed.

Lemma getProcessedEvents_is_the_stored_sequence_aux (w : World) :
  allocated w ->
  Forall (fun e => nullish e = false) (stored w) ->
  exists w',
    EventQueries.getProcessedEvents w
    = (Return (EventQueries.mkResponse 200
                 (EventQueries.Processed (length (stored w))
                                         (map public_fields (stored w)))), w')
    /\ stored w' = stored w
    /\ processedEventIds w' = processedEventIds w.
Proof.
  intros Ha Hf. unfold allocated in Ha.
  unfold EventQueries.getProcessedEvents, try_catch.
  unfold bind at 1. rewrite EventStoreProps.getAllEvents_copies.
  unfold bind at 1, array_read at 1, gets at 1. cbn [arrays with_arrays].
  rewrite lookup_app_r, Nat.sub_diag by lia. cbn [lookup list_lookup default].
  unfold bind at 1, log at 1, modify at 1.
  unfold bind at 1. rewrite (array_map_project _ _ Hf).
  eexists. split; [reflexivity |].
  split; [| reflexivity].
  unfold stored. cbn. rewrite lookup_app_l by exact Ha. reflexivity.
Qed.

(** X25: when the store's array exists and no stored entry is [null] or
    [undefined], as in every state reachable from the empty store,
    [getProcessedEvents] answers 200 with the number of stored events and
    their public fields in insertion order, and leaves the stored sequence
    and the id set as they were. *)
Theorem getProcessedEvents_is_the_stored_sequence (w : World) :
  allocated w ->
  Forall (fun e => nullish e = false) (stored w) ->
  exists w',
    EventQueries.getProcessedEvents w
    = (Return (EventQueries.mkResponse 200
                 (EventQueries.Processed (length (stored w))
                                         (map public_fields (stored w)))), w')
    /\ stored w' = stored w
    /\ processedEventIds w' = processedEventIds w.
Proof. exact (getProcessedEvents_is_the_stored_sequence_aux w). Qed.

Lemma reachable_entries_defined (w : World) :
  reachable w -> Forall (fun e => nullish e = false) (stored w).
Proof.
  intros Hr. apply Forall_forall. intros e He. apply list_elem_of_In in He.
  destruct (EventStoreMore.stored_events_have_ids_aux w Hr e He) as [Hm _].
  destruct e; try discriminate Hm. reflexivity.
Qed.

Lemma getProcessedEvents_is_the_stored_sequence_witness :
  exists w',
    EventQueries.getProcessedEvents (snd (EventStore.addEvent Samples.login boot))
    = (Return (EventQueries.mkResponse 200
                 (EventQueries.Processed 1
                    [EventQueries.mkProjection (VStr "e1") (VStr "u1") (VStr "LOGIN")
                                               VUndefined VUndefined])), w').
Proof.
  destruct (getProcessedEvents_is_the_stored_sequence
              (snd (EventStore.addEvent Samples.login boot))) as (w' & Hg & _).
  - unfold allocated. simpl. lia.
  - repeat constructor.
  - exists w'. exact Hg.
Defined.

(** X26: end to end on the consumer side: once a message that carries a new
    event with its three fields has been handled, [getProcessedEvents]
    answers with one event more, the public fields of that event coming
    last, after those of the events stored before. *)
Theorem consumed_event_is_retrievable
        (JSON_parse : string -> nat -> option (value * nat)) (toISOString : nat -> string)
        (topic : string) (partition : value) (message : KafkaConsumer.KafkaMessage)
        (w : World) (text : string) (event : value) (n' : nat) :
  KafkaConsumer.value_buffer message = Some text ->
  JSON_parse text (objects w) = Some (event, n') ->
  nullish event = false ->
  lacks_field event = false ->
  set_has (processedEventIds w) (get event "eventId") = false ->
  allocated w ->
  Forall (fun e => nullish e = false) (stored w) ->
  exists w1 w2,
    KafkaConsumer.handleMessage JSON_parse toISOString topic partition message w
    = (Return tt, w1)
    /\ EventQueries.getProcessedEvents w1
       = (Return (EventQueries.mkResponse 200
                    (EventQueries.Processed
                       (S (length (stored w)))
                       (map public_fields (stored w) ++ [public_fields event]))), w2).
Proof.
  intros Hv Hp Hn Hl Hs Ha Hf.
  destruct (KafkaConsumerProps.handleMessage_returns JSON_parse toISOString
              topic partition message w) as (w1 & Hh).
  pose proof (KafkaConsumerMore.handleMessage_changes_store_by_addEvent_aux
                JSON_parse toISOString topic partition message w) as Hsv.
  rewrite Hh in Hsv. cbn [snd] in Hsv.
  unfold consumed in Hsv. rewrite Hv, Hp, Hn, Hl in Hsv. cbn [orb] in Hsv.
  destruct (EventStoreMore.addEvent_states event w Ha) as (Haa & Hsta & _).
  apply KafkaConsumerMore.same_store_view in Hsv.
  pose proof (EventStoreProps.same_store_stored _ _ Hsv) as Hst.
  destruct Hsv as (Harr1 & Hev1 & _).
  assert (Ha1 : allocated w1).
  { unfold allocated in *. rewrite Harr1, Hev1. exact Haa. }
  assert (Hst1 : stored w1 = stored w ++ [event]).
  { rewrite Hst, Hsta.
    unfold lacks_field in Hl.
    apply orb_false_iff in Hl. destruct Hl as [Hl _].
    apply orb_false_iff in Hl. destruct Hl as [Hi _].
    apply negb_false_iff in Hi. destruct (EventStoreProps.get_truthy _ _ Hi) as [Ht _].
    rewrite Ht, Hi, Hs. reflexivity. }
  destruct (getProcessedEvents_is_the_stored_sequence_aux w1 Ha1) as (w2 & Hq & _).
  { rewrite Hst1. apply Forall_app. split; [exact Hf |].
    constructor; [exact Hn | constructor]. }
  exists w1, w2. split; [exact Hh |].
  rewrite Hq, Hst1, length_app, map_app. simpl. rewrite Nat.add_1_r. reflexivity.
Qed.

Lemma consumed_event_is_retrievable_witness :
  exists w1 w2,
    KafkaConsumer.handleMessage Samples.parse_table Samples.clock Samples.topic
      (VNum (Zero false)) (KafkaConsumer.mkKafkaMessage (Some "login e1") "42") boot
    = (Return tt, w1)
    /\ EventQueries.getProcessedEvents w1
       = (Return (EventQueries.mkResponse 200
                    (EventQueries.Processed 1 [public_fields Samples.login])), w2).
Proof.
  apply (consumed_event_is_retrievable Samples.parse_table Samples.clock Samples.topic
           (VNum (Zero false)) (KafkaConsumer.mkKafkaMessage (Some "login e1") "42")
           boot "login e1" Samples.login 1); try reflexivity.
  - exact EventStoreProps.allocated_boot.
  - constructor.
Defined.

End EventControllerMore.

(* ===================================================================== *)
(** * Properties of the life cycle of the consumer service *)
(* ===================================================================== *)

Module KafkaConsumerServiceMore.
Import KafkaConsumerService.

Lemma running_implies_connected_step (this this' : Consumer) :
  lifecycle_step this this' ->
  (isRunning this = true -> isConnected this = true) ->
  isRunning this' = true -> isConnected this' = true.
Proof.
  intros Hs Hi. destruct Hs.
  - unfold connect, svc_try, svc_bind, svc_lift, lift, log, modify, set_isConnected.
    destruct client_connect as [[] | e]; cbn; [| exact Hi].
    destruct (client_subscribe topic true) as [[] | e]; cbn; reflexivity.
  - unfold startConsuming, svc_bind, get_isConnected.
    destruct (isConnected this) eqn:Hc; cbn; [| intros H; apply Hi in H; congruence].
    unfold svc_try, svc_bind, svc_lift, lift.
    destruct client_run as [[] | e]; cbn; intros _; exact Hc.
  - unfold disconnect, svc_try, svc_bind, svc_lift, lift, set_isRunning.
    destruct client_disconnect as [[] | e]; cbn; discriminate.
Qed.

(** X27: whatever the broker client does, through any sequence of
    [connect], [startConsuming] and [disconnect] calls on a new service, the
    service is never running without being connected. *)
Theorem never_running_unconnected (this : Consumer) :
  lifecycle this -> isRunning this = true -> isConnected this = true.
Proof.
  induction 1 as [| this this' _ IH Hs]; [discriminate |].
  exact (running_implies_connected_step _ _ Hs IH).
Qed.

Lemma never_running_unconnected_witness :
  isRunning (snd (fst (startConsuming (Return tt)
                         (snd (fst (connect Samples.topic (Return tt)
                                            (fun _ _ => Return tt) constructor boot)))
                         boot))) = true
  /\ isConnected (snd (fst (startConsuming (Return tt)
                              (snd (fst (connect Samples.topic (Return tt)
                                                 (fun _ _ => Return tt) constructor boot)))
                              boot))) = true.
Proof.
  split; [reflexivity |].
  apply never_running_unconnected; [| reflexivity].
  eapply lifecycle_next; [| apply step_startConsuming].
  eapply lifecycle_next; [apply lifecycle_new | apply step_connect].
Defined.

(** X28: [startConsuming] on a service that is not connected throws
    "Consumer is not connected to Kafka" and changes nothing; on a
    connected one it marks the service running before it calls the client,
    so the service stays marked running when the client's [run] fails and
    the error is rethrown. *)
Theorem startConsuming_guard (client_run : outcome unit) (this : Consumer) (w : World) :
  (isConnected this = false ->
   startConsuming client_run this w
   = (Throw (new_Error "Consumer is not connected to Kafka"), this, w))
  /\ (isConnected this = true ->
      forall e, client_run = Throw e ->
      exists this' w',
        startConsuming client_run this w = (Throw e, this', w')
        /\ isRunning this' = true
        /\ isConnected this' = true).
Proof.
  split.
  - intros Hc. unfold startConsuming, svc_bind, get_isConnected. rewrite Hc. reflexivity.
  - intros Hc e ->. unfold startConsuming, svc_bind, get_isConnected. rewrite Hc.
    eexists _, _. split; [reflexivity |]. split; [reflexivity | exact Hc].
Qed.

Lemma startConsuming_guard_witness :
  startConsuming (Return tt) constructor boot
  = (Throw (new_Error "Consumer is not connected to Kafka"), constructor, boot).
Proof. apply (startConsuming_guard (Return tt) constructor boot). reflexivity. Defined.

(** X29: when the client connects but the subscription fails, [connect]
    rethrows the error with the service already marked connected, so that a
    later [startConsuming] is let through; when the client does not
    connect, the flags are as before. *)
Theorem connect_without_subscription
        (topic : string) (client_subscribe : string -> bool -> outcome unit)
        (this : Consumer) (w : World) (e : Error) :
  (client_subscribe topic true = Throw e ->
   exists this' w',
     connect topic (Return tt) client_subscribe this w = (Throw e, this', w')
     /\ isConnected this' = true
     /\ exists this'' w'',
         startConsuming (Return tt) this' w' = (Return tt, this'', w'')
         /\ isRunning this'' = true)
  /\ (exists w', connect topic (Throw e) client_subscribe this w = (Throw e, this, w')).
Proof.
  split.
  - intros Hs. unfold connect, svc_try, svc_bind, svc_lift, lift, log, modify,
                 set_isConnected. rewrite Hs.
    eexists _, _. split; [reflexivity |]. split; [reflexivity |].
    eexists _, _. split; reflexivity.
  - eexists. reflexivity.
Qed.

Lemma connect_without_subscription_witness :
  exists this' w',
    connect Samples.topic (Return tt) (fun _ _ => Throw (new_Error "no such topic"))
            constructor boot
    = (Throw (new_Error "no such topic"), this', w')
    /\ isConnected this' = true.
Proof.
  destruct (connect_without_subscription Samples.topic
              (fun _ _ => Throw (new_Error "no such topic")) constructor boot
              (new_Error "no such topic")) as [H _].
  destruct (H eq_refl) as (this' & w' & Hc & Hi & _).
  exists this', w'. split; [exact Hc | exact Hi].
Defined.

(** [disconnect] always leaves the service not running; it clears the
    connection flag when the client disconnects, and rethrows the error
    with the connection flag as it was when the client fails. *)
Lemma disconnect_stops_the_loop (this : Consumer) (w : World) :
  (exists w', disconnect (Return tt) this w = (Return tt, mkConsumer false false, w'))
  /\ (forall e, exists w',
         disconnect (Throw e) this w
         = (Throw e, mkConsumer (isConnected this) false, w')).
Proof.
  split; [| intros e]; eexists; reflexivity.
Qed.

End KafkaConsumerServiceMore.
